(** * HMMA238 course scripts: a model of [TempsMemoire.py] and [Pandas.py]

    The two scripts of the repository are sequences of notebook cells.
    This development embeds the cells that carry behaviour of their own
    (the two functions of [TempsMemoire.py], the hour conversion and the
    last cell of [Pandas.py], the download / read steps) as programs of a
    small monad over an explicit world: local disk, web, module globals,
    and a log of what was executed. *)

From Stdlib Require Import ZArith List String Ascii Bool Lia.
From Stdlib Require Import Floats.SpecFloat DecimalString Sorted.
From stdpp Require Import gmap strings.

Import ListNotations.
Local Open Scope string_scope.
Local Open Scope list_scope.
Local Open Scope Z_scope.

(** ** Python values *)

(** Python's [float] is IEEE 754 binary64. *)
Definition prec : Z := 53.
Definition emax : Z := 1024.

(** The values the modelled cells handle.  [PyLib cls st] is an object
    of a library class that the scripts only pass around (a graph, a
    chart, a parsed table). *)
#[warnings="-register-all"]
Inductive pyobj : Type :=
| PyNone
| PyBool (b : bool)
| PyInt (n : Z)
| PyFloat (f : spec_float)
| PyStr (s : string)
| PyList (xs : list pyobj)
| PySeries (dtype : string) (xs : list pyobj)
| PyFrame (cols : list (string * pyobj))
| PyLib (cls : string) (st : list pyobj).

Inductive exn : Type :=
| ZeroDivisionError
| OverflowError
| TypeError
| ValueError
| NameError (name : string)
| KeyError (key : string)
| FileNotFoundError (path : string)
| LibError (what : string).

Inductive result (A : Type) : Type :=
| Ok (a : A)
| Raise (e : exn).
Arguments Ok {A} a.
Arguments Raise {A} e.

(** ** What an execution leaves behind *)

Inductive operator : Type := OpTrueDiv | OpAdd | OpSub | OpMul | OpPow | OpIs.

Inductive io : Type :=
| Stdout                        (* text written by [print] *)
| Debugger                      (* the [pdb] prompt: terminal input and output *)
| FileRead (path : string)
| FileWrite (path : string)
| HttpGet (url : string)        (* download of a given URL *)
| WebQuery (service : string) (query : string)  (* request to a web service *)
| Display (what : string)       (* a figure handed to a display *)
| TempFileWrite.                (* a temporary file, outside the working directory *)

Inductive event : Type :=
| EvStmt (line : nat)           (* the statement at this source line starts *)
| EvOp (op : operator)          (* an operator evaluated by the script itself *)
| EvCall (fn : string)          (* a call into a library *)
| EvIO (x : io).

(** ** The world the scripts run in *)

(** [disk] maps the normalised path of a file of the working directory
    to its text, [web] a URL or the query sent to a web service to the
    text served.  [library] stands for the pure part of the library
    routines that are not modelled further (parsing a CSV text, binning
    a column, a shortest path): the value or the exception the routine
    yields on given arguments.  [options] is the option registry of
    pandas ([pd.options]), [ox_use_cache] the setting of that name of
    osmnx, [globals] the module namespace of the running script and
    [stdout] what has been printed so far. *)
Record world : Type := World {
  disk : gmap string string;
  web : gmap string string;
  library : string -> list pyobj -> result pyobj;
  options : gmap string pyobj;
  ox_use_cache : bool;
  globals : gmap string pyobj;
  stdout : list pyobj
}.

Definition set_disk (d : gmap string string) (w : world) : world :=
  World d (web w) (library w) (options w) (ox_use_cache w) (globals w) (stdout w).
Definition set_options (o : gmap string pyobj) (w : world) : world :=
  World (disk w) (web w) (library w) o (ox_use_cache w) (globals w) (stdout w).
Definition set_ox_use_cache (b : bool) (w : world) : world :=
  World (disk w) (web w) (library w) (options w) b (globals w) (stdout w).
Definition set_globals (g : gmap string pyobj) (w : world) : world :=
  World (disk w) (web w) (library w) (options w) (ox_use_cache w) g (stdout w).
Definition set_stdout (out : list pyobj) (w : world) : world :=
  World (disk w) (web w) (library w) (options w) (ox_use_cache w) (globals w) out.

(** ** The monad of cells: state, exceptions and an execution log *)

Record run (A : Type) : Type := Run {
  outcome : result A;
  final : world;
  emitted : list event
}.
Arguments Run {A} outcome final emitted.
Arguments outcome {A} r.
Arguments final {A} r.
Arguments emitted {A} r.

Definition M (A : Type) : Type := world -> run A.

Definition ret {A} (a : A) : M A := fun w => Run (Ok a) w [].
Definition raise {A} (e : exn) : M A := fun w => Run (Raise e) w [].
Definition bind {A B} (c : M A) (k : A -> M B) : M B := fun w =>
  match c w with
  | Run (Ok a) w1 l1 =>
      match k a w1 with
      | Run o w2 l2 => Run o w2 (l1 ++ l2)
      end
  | Run (Raise e) w1 l1 => Run (Raise e) w1 l1
  end.
Definition lift {A} (r : result A) : M A := fun w => Run r w [].
Definition emit (e : event) : M unit := fun w => Run (Ok tt) w [e].
Definition get : M world := fun w => Run (Ok w) w [].
Definition modify (f : world -> world) : M unit := fun w => Run (Ok tt) (f w) [].

#[global] Instance M_ret : MRet M := @ret.
#[global] Instance M_bind : MBind M := fun A B k c => bind c k.

(** [stmt n c]: the statement of source line [n]. *)
Definition stmt {A} (line : nat) (c : M A) : M A := emit (EvStmt line) ;; c.

(** [for x in xs: body], threading the local variables [s] the body
    rebinds.  The first exception ends the loop. *)
Fixpoint for_each {A S} (xs : list A) (s : S) (body : A -> S -> M S) : M S :=
  match xs with
  | [] => ret s
  | x :: xs' => s' ← body x s; for_each xs' s' body
  end.

(** ** Builtins and operators *)

(** The operators are given on the operand types the scripts meet
    (ints, floats, text); [TypeError] stands for what Python does on
    the others, which no property below relies on. *)

(** [range(start, stop, step)] on ints. *)
Definition range_length (start stop step : Z) : Z :=
  if 0 <? step then
    if start <? stop then (stop - start - 1) / step + 1 else 0
  else
    if stop <? start then (start - stop - 1) / (- step) + 1 else 0.

Definition py_range (start stop step : Z) : M (list Z) :=
  if step =? 0 then raise ValueError
  else ret (map (fun k => start + Z.of_nat k * step)
                (seq 0 (Z.to_nat (range_length start stop step)))).

(** [print(v)]: the object printed is appended to [stdout] as it is,
    its rendering as text is left to the reader. *)
Definition print (v : pyobj) : M unit :=
  emit (EvIO Stdout) ;;
  modify (fun w => set_stdout (stdout w ++ [v]) w).

(** Integers as binary64 operands. *)
Definition Z2SF (n : Z) : spec_float :=
  match n with
  | Z0 => S754_zero false
  | Zpos p => S754_finite false p 0
  | Zneg p => S754_finite true p 0
  end.

(** The least magnitude that rounds (to nearest, ties to even) out of
    the binary64 range. *)
Definition overflow_threshold : Z := 2 ^ 1024 - 2 ^ 970.

(** [a / b] on ints: the correctly rounded quotient. *)
Definition int_truediv (a b : Z) : result spec_float :=
  if b =? 0 then Raise ZeroDivisionError
  else if Z.abs b * overflow_threshold <=? Z.abs a then Raise OverflowError
  else Ok (SFdiv prec emax (Z2SF a) (Z2SF b)).

(** [float(n)] as done by the mixed int/float operators. *)
Definition float_of_int (n : Z) : result spec_float :=
  if overflow_threshold <=? Z.abs n then Raise OverflowError
  else Ok (binary_normalize prec emax n 0 false).

Definition float_truediv (f g : spec_float) : result spec_float :=
  match g with
  | S754_zero _ => Raise ZeroDivisionError
  | _ => Ok (SFdiv prec emax f g)
  end.

(** [a / b] evaluated by the script. *)
Definition py_truediv (a b : pyobj) : M pyobj :=
  emit (EvOp OpTrueDiv) ;;
  match a, b with
  | PyInt x, PyInt y => q ← lift (int_truediv x y); ret (PyFloat q)
  | PyInt x, PyFloat g =>
      f ← lift (float_of_int x); q ← lift (float_truediv f g); ret (PyFloat q)
  | PyFloat f, PyInt y =>
      g ← lift (float_of_int y); q ← lift (float_truediv f g); ret (PyFloat q)
  | PyFloat f, PyFloat g => q ← lift (float_truediv f g); ret (PyFloat q)
  | _, _ => raise TypeError
  end.

(** [a + b] evaluated by the script. *)
Definition py_add (a b : pyobj) : M pyobj :=
  emit (EvOp OpAdd) ;;
  match a, b with
  | PyInt x, PyInt y => ret (PyInt (x + y))
  | PyInt x, PyFloat g => f ← lift (float_of_int x); ret (PyFloat (SFadd prec emax f g))
  | PyFloat f, PyInt y => g ← lift (float_of_int y); ret (PyFloat (SFadd prec emax f g))
  | PyFloat f, PyFloat g => ret (PyFloat (SFadd prec emax f g))
  | PyStr s, PyStr t => ret (PyStr (s ++ t))
  | _, _ => raise TypeError
  end.

(** ** [TempsMemoire.py], lines 468-474 and 486-497 *)

(** [pdb.set_trace()]: the prompt opens on the terminal; the session is
    taken to be the plain [c] (continue) the course text asks for, which
    leaves the frame as it is. *)
Definition pdb_set_trace : M unit :=
  emit (EvCall "pdb.set_trace") ;; emit (EvIO Debugger).

Definition illustrate_pdb (x : pyobj) : M pyobj :=
  answer ← stmt 469 (ret (PyInt 42));
  stmt 470 pdb_set_trace ;;
  answer ← stmt 471 (py_add answer x);
  stmt 472 (ret answer).

Definition blobl_body (i : Z) (answer : pyobj) : M pyobj :=
  stmt 489 (print (PyInt i)) ;;
  stmt 490 (q ← py_truediv (PyInt 1) (PyInt i); py_add answer q).

Definition blobl_func (x : Z) : M pyobj :=
  answer ← stmt 487 (ret (PyInt 0));
  r ← stmt 488 (py_range x (-1) (-1));
  answer ← for_each r answer blobl_body;
  stmt 492 (ret answer).

Definition py_mul (a b : pyobj) : M pyobj :=
  emit (EvOp OpMul) ;;
  match a, b with
  | PyInt x, PyInt y => ret (PyInt (x * y))
  | _, _ => raise TypeError
  end.

(** [a ** b] on ints, for the non-negative exponents the scripts use. *)
Definition py_pow (a b : pyobj) : M pyobj :=
  emit (EvOp OpPow) ;;
  match a, b with
  | PyInt x, PyInt y => if y <? 0 then raise TypeError else ret (PyInt (x ^ y))
  | _, _ => raise TypeError
  end.

(** [a is b].  Objects carry no address here: on the operands the
    scripts compare (two occurrences of one string literal in a cell,
    which CPython shares, and the singleton [True]) identity is
    equality of the values. *)
Definition py_is (a b : pyobj) : M bool :=
  emit (EvOp OpIs) ;;
  ret (match a, b with
       | PyStr s, PyStr t => String.eqb s t
       | PyBool x, PyBool y => Bool.eqb x y
       | PyNone, PyNone => true
       | _, _ => false
       end).

(** [template.format(args)]: the text is kept as the pair of its
    template and arguments. *)
Definition py_format (template : string) (args : list pyobj) : pyobj :=
  PyLib "str.format" (PyStr template :: args).

(** ** Module namespace *)

Definition load (name : string) : M pyobj :=
  w ← get;
  match globals w !! name with
  | Some v => ret v
  | None => raise (NameError name)
  end.

Definition store (name : string) (v : pyobj) : M unit :=
  modify (fun w => set_globals (<[name := v]> (globals w)) w).

(** ** Calls into libraries *)

(** A routine of which only the result matters. *)
Definition call (fn : string) (args : list pyobj) : M pyobj :=
  emit (EvCall fn) ;;
  w ← get;
  lift (library w fn args).

(** Paths are relative to the working directory: [./f] and [f] name one
    file. *)
Definition normpath (p : string) : string :=
  match p with
  | String "." (String "/" rest) => rest
  | _ => p
  end.

(** Reading a local file as text. *)
Definition read_file (path : string) : M string :=
  emit (EvIO (FileRead path)) ;;
  w ← get;
  match disk w !! normpath path with
  | Some text => ret text
  | None => raise (FileNotFoundError path)
  end.

Definition write_file (path text : string) : M unit :=
  emit (EvIO (FileWrite path)) ;;
  modify (fun w => set_disk (<[normpath path := text]> (disk w)) w).

(** [download(url, path, replace=...)] of the [download] package: an
    existing file is kept unless [replace]; otherwise the URL is fetched
    and stored at [path].  A failed fetch raises the package's
    [RuntimeError].  Returns the path.  (The progress the package
    reports on the terminal is left out.) *)
Definition download (url path : string) (replace : bool) : M pyobj :=
  emit (EvCall "download") ;;
  w ← get;
  match disk w !! normpath path, replace with
  | Some _, false => ret (PyStr path)
  | _, _ =>
      emit (EvIO (HttpGet url)) ;;
      match web w !! url with
      | Some body => write_file path body ;; ret (PyStr path)
      | None => raise (LibError "RuntimeError")
      end
  end.

(** [pd.read_csv(path, ...)]: the file is read, then parsed by the
    library with the given options. *)
Definition pd_read_csv (path : string) (kwargs : list pyobj) : M pyobj :=
  emit (EvCall "pd.read_csv") ;;
  text ← read_file path;
  w ← get;
  lift (library w "pd.read_csv" (PyStr text :: kwargs)).

(** [with enter as h: body]: [leave] runs whether the body raised or
    not, and the exception of the body, if any, goes on. *)
Definition with_ {H A} (enter : M H) (leave : H -> M unit) (body : H -> M A) : M A :=
  fun w =>
    match enter w with
    | Run (Raise e) w1 l1 => Run (Raise e) w1 l1
    | Run (Ok h) w1 l1 =>
        match body h w1 with
        | Run ob w2 l2 =>
            match leave h w2 with
            | Run ol w3 l3 =>
                Run (match ob, ol with
                     | Raise e, _ => Raise e
                     | Ok _, Raise e => Raise e
                     | Ok a, Ok _ => Ok a
                     end) w3 (l1 ++ l2 ++ l3)
            end
        end
    end.

(** [open(path)] for reading: the handle is the text of the file. *)
Definition py_open (path : string) : M string :=
  emit (EvCall "open") ;; read_file path.
Definition file_close (h : string) : M unit := emit (EvCall "file.close").

(** ** DataFrame columns *)

Fixpoint assoc_get (k : string) (cols : list (string * pyobj)) : option pyobj :=
  match cols with
  | [] => None
  | (k', v) :: rest => if String.eqb k k' then Some v else assoc_get k rest
  end.

(** Assigning a column: an existing one is replaced in place, a new one
    is appended. *)
Fixpoint assoc_set (k : string) (v : pyobj) (cols : list (string * pyobj))
  : list (string * pyobj) :=
  match cols with
  | [] => [(k, v)]
  | (k', v') :: rest =>
      if String.eqb k k' then (k, v) :: rest else (k', v') :: assoc_set k v rest
  end.

(** [df[col]] *)
Definition frame_getitem (df : pyobj) (col : string) : M pyobj :=
  emit (EvCall "DataFrame.__getitem__") ;;
  match df with
  | PyFrame cols =>
      match assoc_get col cols with
      | Some c => ret c
      | None => raise (KeyError col)
      end
  | _ => raise TypeError
  end.

(** [df[col] = v] on the frame bound to the global [name]: the object
    is changed in place. *)
Definition frame_setitem (name col : string) (v : pyobj) : M unit :=
  df ← load name;
  emit (EvCall "DataFrame.__setitem__") ;;
  match df with
  | PyFrame cols => store name (PyFrame (assoc_set col v cols))
  | _ => raise TypeError
  end.

(** ** Strings and integers *)

Fixpoint traverse {A B} (f : A -> result B) (xs : list A) : result (list B) :=
  match xs with
  | [] => Ok []
  | x :: rest =>
      match f x with
      | Raise e => Raise e
      | Ok y => match traverse f rest with
                | Raise e => Raise e
                | Ok ys => Ok (y :: ys)
                end
      end
  end.

Definition is_space (c : ascii) : bool :=
  let n := Z.of_nat (nat_of_ascii c) in
  ((9 <=? n) && (n <=? 13)) || ((28 <=? n) && (n <=? 32)).

Definition digit_val (c : ascii) : option Z :=
  let n := Z.of_nat (nat_of_ascii c) in
  if (48 <=? n) && (n <=? 57) then Some (n - 48) else None.

Fixpoint lstrip (l : list ascii) : list ascii :=
  match l with
  | c :: rest => if is_space c then lstrip rest else l
  | [] => []
  end.

Definition strip (l : list ascii) : list ascii := rev (lstrip (rev (lstrip l))).

(** Decimal digits, single underscores allowed between two digits. *)
Fixpoint digits (l : list ascii) (acc : Z) (after_digit : bool) : option Z :=
  match l with
  | [] => if after_digit then Some acc else None
  | c :: rest =>
      match digit_val c with
      | Some d => digits rest (10 * acc + d) true
      | None =>
          if Ascii.eqb c "_" && after_digit then digits rest acc false else None
      end
  end.

(** [int(s)] on ASCII text: surrounding whitespace, an optional sign,
    decimal digits.  [None] is [ValueError]. *)
Definition int_of_str (s : string) : option Z :=
  match strip (list_ascii_of_string s) with
  | "-"%char :: rest => option_map Z.opp (digits rest 0 false)
  | "+"%char :: rest => digits rest 0 false
  | l => digits l 0 false
  end.

(** [str(n)] on ints. *)
Definition str_of_int (n : Z) : string := NilZero.string_of_int (Z.to_int n).

(** ** Series of the air-quality table *)

(** An [int8] holds [-128 .. 127]; conversions and arithmetic wrap. *)
Definition wrap_int8 (n : Z) : Z := (n + 128) mod 256 - 128.

(** Storing an element of an object column into an [int8] array: text
    goes through [int], the C [long] obtained is truncated to 8 bits. *)
Definition to_int8 (v : pyobj) : result pyobj :=
  let narrow (n : Z) :=
    if (- 2 ^ 63 <=? n) && (n <? 2 ^ 63) then Ok (PyInt (wrap_int8 n))
    else Raise OverflowError in
  match v with
  | PyStr s => match int_of_str s with
               | Some n => narrow n
               | None => Raise ValueError
               end
  | PyInt n => narrow n
  | _ => Raise TypeError
  end.

(** [s.astype(np.int8)] *)
Definition series_astype_int8 (s : pyobj) : M pyobj :=
  emit (EvCall "Series.astype") ;;
  match s with
  | PySeries _ xs => ys ← lift (traverse to_int8 xs); ret (PySeries "int8" ys)
  | _ => raise TypeError
  end.

(** [s - k] on an [int8] column and a small Python int *)
Definition int8_sub (k : Z) (v : pyobj) : result pyobj :=
  match v with
  | PyInt n => Ok (PyInt (wrap_int8 (n - k)))
  | _ => Raise TypeError
  end.

Definition series_sub (s : pyobj) (k : Z) : M pyobj :=
  emit (EvCall "Series.__sub__") ;;
  match s with
  | PySeries "int8" xs =>
      ys ← lift (traverse (int8_sub k) xs); ret (PySeries "int8" ys)
  | _ => raise TypeError
  end.

(** [s.astype('str')] on a column of ints or text *)
Definition elem_to_str (v : pyobj) : result pyobj :=
  match v with
  | PyInt n => Ok (PyStr (str_of_int n))
  | PyStr t => Ok (PyStr t)
  | _ => Raise TypeError
  end.

Definition series_astype_str (s : pyobj) : M pyobj :=
  emit (EvCall "Series.astype") ;;
  match s with
  | PySeries _ xs =>
      ys ← lift (traverse elem_to_str xs); ret (PySeries "object" ys)
  | _ => raise TypeError
  end.

(** [s + t] on a column of text, elementwise; [t] a string is
    broadcast. *)
Fixpoint zip_concat (xs ys : list pyobj) : result (list pyobj) :=
  match xs, ys with
  | [], [] => Ok []
  | PyStr a :: xs', PyStr b :: ys' =>
      match zip_concat xs' ys' with
      | Ok r => Ok (PyStr (a ++ b) :: r)
      | Raise e => Raise e
      end
  | _, _ => Raise TypeError
  end.

Definition series_add (s t : pyobj) : M pyobj :=
  emit (EvCall "Series.__add__") ;;
  match s, t with
  | PySeries _ xs, PyStr b =>
      ys ← lift (traverse (fun v => match v with
                                    | PyStr a => Ok (PyStr (a ++ b))
                                    | _ => Raise TypeError
                                    end) xs);
      ret (PySeries "object" ys)
  | PySeries _ xs, PySeries _ ys =>
      zs ← lift (zip_concat xs ys); ret (PySeries "object" zs)
  | _, _ => raise TypeError
  end.

(** The hour field a [strptime] format accepts for [%H]: the texts of
    the pattern [2[0-3]|[0-1]\d|\d], with the hour they denote. *)
Definition directive_H (s : string) : option Z :=
  match list_ascii_of_string s with
  | [a] => digit_val a
  | [a; b] =>
      match digit_val a, digit_val b with
      | Some x, Some y =>
          if (x =? 2) && (y <=? 3) || (x <=? 1) then Some (10 * x + y) else None
      | _, _ => None
      end
  | _ => None
  end.

(** ** Cells of [Pandas.py] *)

Definition as_str (v : pyobj) : M string :=
  match v with
  | PyStr s => ret s
  | _ => raise TypeError
  end.

Definition set_option (key : string) (v : pyobj) : M unit :=
  modify (fun w => set_options (<[key := v]> (options w)) w).

(** line 23: [pd.options.display.max_rows = 8] *)
Definition cell_Pandas_23 : M unit :=
  stmt 23 (set_option "display.max_rows" (PyInt 8)).

(** lines 30-32 *)
Definition cell_Pandas_30 : M unit :=
  stmt 30 (store "url"
             (PyStr "http://josephsalmon.eu/enseignement/datasets/titanic.csv")) ;;
  stmt 31 (store "path_target" (PyStr "./titanic.csv")) ;;
  stmt 32 (url ← load "url"; url ← as_str url;
           path ← load "path_target"; path ← as_str path;
           download url path false ;; ret tt).

(** line 36 *)
Definition cell_Pandas_36 : M unit :=
  stmt 36 (df ← pd_read_csv "titanic.csv" []; store "df_titanic_raw" df).

(** [np.arange(start, stop, step)] on ints *)
Definition np_arange (start stop step : Z) : M pyobj :=
  emit (EvCall "np.arange") ;;
  r ← py_range start stop step;
  ret (PyLib "ndarray" (map PyInt r)).

(** lines 497-498 *)
Definition stmt_Pandas_497 : M unit :=
  stmt 497 (df ← load "df_titanic";
            age ← frame_getitem df "Age";
            bins ← np_arange 0 90 10;
            classes ← call "pd.cut" [age; bins];
            frame_setitem "df_titanic" "AgeClass" classes).

Definition stmt_Pandas_498 : M unit :=
  stmt 498 (df ← load "df_titanic"; frame_getitem df "AgeClass" ;; ret tt).

Definition cell_Pandas_497 : M unit := stmt_Pandas_497 ;; stmt_Pandas_498.

(** lines 562-563, 567-568 and 573-574: the three cells that turn the
    hours [1 .. 24] of the file into [0 .. 23] *)
Definition cell_Pandas_562 : M unit :=
  stmt 562 (df ← load "polution_df";
            heure ← frame_getitem df "heure";
            heure ← series_astype_int8 heure;
            frame_setitem "polution_df" "heure" heure) ;;
  stmt 563 (df ← load "polution_df"; frame_getitem df "heure" ;; ret tt).

Definition cell_Pandas_567 : M unit :=
  stmt 567 (df ← load "polution_df";
            heure ← frame_getitem df "heure";
            heure ← series_sub heure 1;
            frame_setitem "polution_df" "heure" heure) ;;
  stmt 568 (df ← load "polution_df"; frame_getitem df "heure" ;; ret tt).

Definition cell_Pandas_573 : M unit :=
  stmt 573 (df ← load "polution_df";
            heure ← frame_getitem df "heure";
            heure ← series_astype_str heure;
            frame_setitem "polution_df" "heure" heure) ;;
  stmt 574 (df ← load "polution_df"; frame_getitem df "heure" ;; ret tt).

(** lines 584-589 *)
Definition cell_Pandas_584 : M unit :=
  stmt 584 (df ← load "polution_df";
            date ← frame_getitem df "date";
            s ← series_add date (PyStr " ");
            df ← load "polution_df";
            heure ← frame_getitem df "heure";
            s ← series_add s heure;
            s ← series_add s (PyStr ":00");
            t ← call "pd.to_datetime" [s; PyStr "%d/%m/%Y %H:%M"];
            store "time_improved" t) ;;
  stmt 589 (load "time_improved" ;; ret tt).

(** lines 785-787 *)
Definition cell_Pandas_785 : M unit :=
  stmt 785 (store "url"
    (PyStr "https://koumoul.com/s/data-fair/api/v1/datasets/accidents-velos/raw")) ;;
  stmt 786 (store "path_target" (PyStr "./bicycle_db.csv")) ;;
  stmt 787 (url ← load "url"; url ← as_str url;
            path ← load "path_target"; path ← as_str path;
            download url path true ;; ret tt).

(** [chart.render_in_browser()] of pygal: the chart is rendered,
    written to a temporary file and handed to the web browser. *)
Definition render_in_browser (chart : pyobj) : M unit :=
  emit (EvCall "Graph.render_in_browser") ;;
  w ← get;
  svg ← lift (library w "Graph.render" [chart]);
  emit (EvIO TempFileWrite) ;;
  emit (EvIO (Display "browser")).

(** [obj.attr = v] on a library object bound to the global [name] *)
Definition setattr (name attr : string) (v : pyobj) : M unit :=
  o ← load name;
  match o with
  | PyLib cls st => store name (PyLib cls (PyList [PyStr attr; v] :: st))
  | _ => raise TypeError
  end.

(** lines 1053-1076, the last cell: the two suites of the first [if],
    the suite of the second, then the cell *)
Definition suite_Pandas_1060 : M unit :=
  stmt 1060 (setattr "fr_chart" "title" (PyStr "Accidents by departement")) ;;
  stmt 1061 (df ← load "df_bikes";
             g ← call "DataFrame.groupby" [df; PyList [PyStr "departement"]];
             gd ← call "GroupBy.size" [g];
             store "gd" gd) ;;
  stmt 1062 (gd ← load "gd";
             pop ← load "df_dtp_pop";
             p ← frame_getitem pop "Population";
             gd ← call "Series.__truediv__" [gd; p];
             store "gd" gd).

Definition suite_Pandas_1064 : M unit :=
  stmt 1064 (setattr "fr_chart" "title" (PyStr "Deaths by departement")) ;;
  stmt 1065 (df ← load "df_bikes";
             df' ← load "df_bikes";
             g ← frame_getitem df' "gravite accident";
             m ← call "Series.__eq__" [g; PyStr "3 - Tué"];
             dead ← call "DataFrame.__getitem__" [df; m];
             store "df_deads" dead) ;;
  stmt 1066 (dead ← load "df_deads";
             g ← call "DataFrame.groupby" [dead; PyStr "departement"];
             s ← call "GroupBy.size" [g];
             store "df_gravite" s) ;;
  stmt 1068 (s ← load "df_gravite";
             pop ← load "df_dtp_pop";
             p ← frame_getitem pop "Population";
             gd ← call "Series.__truediv__" [s; p];
             store "gd" gd).

Definition suite_Pandas_1073 : M unit :=
  stmt 1073 (gd ← load "gd";
             area ← load "df_dtp_area";
             a ← frame_getitem area "SUPERFICIE (km²)";
             gd ← call "Series.__truediv__" [gd; a];
             store "gd" gd).

Definition tail_Pandas_1074 : M unit :=
  stmt 1074 (gd ← load "gd";
             gd ← call "Series.dropna" [gd];
             store "gd" gd) ;;
  stmt 1075 (c ← load "fr_chart";
             gd ← load "gd";
             d ← call "Series.to_dict" [gd];
             c ← call "Graph.add" [c; PyStr "Accidents"; d];
             store "fr_chart" c) ;;
  stmt 1076 (c ← load "fr_chart"; render_in_browser c).

Definition cell_Pandas_1053 : M unit :=
  stmt 1053 (c ← call "pygal.maps.fr.Departments" [PyBool true]; store "fr_chart" c) ;;
  stmt 1056 (store "display" (PyStr "ratio_accident")) ;;
  (b ← stmt 1059 (d ← load "display"; py_is d (PyStr "ratio_accident"));
   if b : bool then suite_Pandas_1060 else suite_Pandas_1064) ;;
  stmt 1071 (store "normalization" (PyBool true)) ;;
  (b ← stmt 1072 (n ← load "normalization"; py_is n (PyBool true));
   if b : bool then suite_Pandas_1073 else ret tt) ;;
  tail_Pandas_1074.

(** ** Cells of [TempsMemoire.py] *)

(** lines 256-257 *)
Definition cell_TempsMemoire_256 : M unit :=
  stmt 256 (with_ (py_open "force.json") file_close (fun h =>
    stmt 257 (js ← call "json.load" [PyStr h]; store "js_graph" js))).

(** [ox.utils.config(use_cache=True)], line 327 *)
Definition cell_TempsMemoire_327 : M unit :=
  stmt 327 (emit (EvCall "ox.utils.config") ;; modify (set_ox_use_cache true)).

(** Where osmnx keeps the response to a query. *)
Definition cache_path (query : string) : string := "cache/" ++ query.

(** A request of osmnx to the OpenStreetMap services.  With
    [use_cache] on, a response saved in the folder [cache] is read back
    instead of asking the service, and the response of the service is
    saved there.  The requests of one routine (the place, then the data
    inside it) are taken as one, named by the place. *)
Definition ox_request (query : string) : M string :=
  w ← get;
  match (if ox_use_cache w then disk w !! cache_path query else None) with
  | Some text => emit (EvIO (FileRead (cache_path query))) ;; ret text
  | None =>
      emit (EvIO (WebQuery "OpenStreetMap" query)) ;;
      match web w !! query with
      | None => raise (LibError "ConnectionError")
      | Some text =>
          (if ox_use_cache w then write_file (cache_path query) text else ret tt) ;;
          ret text
      end
  end.

(** [ox.graph_from_place] and [ox.utils.geocode] of osmnx: the place
    is looked up, the library builds its value from the response. *)
Definition ox_graph_from_place (place network_type : string) : M pyobj :=
  emit (EvCall "ox.graph_from_place") ;;
  text ← ox_request place;
  w ← get;
  lift (library w "ox.graph_from_place" [PyStr text; PyStr network_type]).

Definition ox_geocode (place : string) : M pyobj :=
  emit (EvCall "ox.utils.geocode") ;;
  text ← ox_request place;
  w ← get;
  lift (library w "ox.utils.geocode" [PyStr text]).

Definition place_montpellier : string := "Montpellier, France".

(** line 333 *)
Definition cell_TempsMemoire_333 : M unit :=
  stmt 333 (g ← ox_graph_from_place place_montpellier "bike"; store "G" g).

Definition place_origin : string := "Place Eugène Bataillon, Montpellier, France".
Definition place_destination : string := "Maison du Lez, Montpellier, France".

(** lines 352-360 *)
Definition cell_TempsMemoire_352 : M unit :=
  stmt 352 (o ← ox_geocode place_origin; store "origin" o) ;;
  stmt 353 (d ← ox_geocode place_destination; store "destination" d) ;;
  stmt 355 (g ← load "G"; o ← load "origin";
            n ← call "ox.get_nearest_node" [g; o]; store "origin_node" n) ;;
  stmt 356 (g ← load "G"; d ← load "destination";
            n ← call "ox.get_nearest_node" [g; d]; store "destination_node" n) ;;
  stmt 358 (o ← load "origin"; print o) ;;
  stmt 359 (d ← load "destination"; print d) ;;
  stmt 360 (g ← load "G"; o ← load "origin_node"; d ← load "destination_node";
            r ← call "nx.shortest_path" [g; o; d]; store "route" r).

Definition sparsity_template : string :=
  "Il a {0:.2} % d'arrêtes utlile pour représenter le graphe de la ville de Montpellier".

(** line 423 *)
Definition cell_TempsMemoire_423 : M unit :=
  stmt 423 (g ← load "G";
            e ← call "Graph.number_of_edges" [g];
            a ← py_mul (PyInt 100) e;
            g ← load "G";
            n ← call "Graph.number_of_nodes" [g];
            d ← py_pow n (PyInt 2);
            q ← py_truediv a d;
            print (py_format sparsity_template [q])).

(** lines 468-474 *)
Definition cell_TempsMemoire_468 : M unit :=
  stmt 474 (illustrate_pdb (PyInt 12)) ;; ret tt.

(** line 497 *)
Definition cell_TempsMemoire_497 : M unit :=
  stmt 497 (blobl_func 4) ;; ret tt.

(** ** Running cells in sequence *)

Fixpoint run_cells (cells : list (M unit)) : M unit :=
  match cells with
  | [] => ret tt
  | c :: rest => c ;; run_cells rest
  end.

(** The three cells of the hour conversion. *)
Definition heure_cells : M unit :=
  run_cells [cell_Pandas_562; cell_Pandas_567; cell_Pandas_573].

(** The cells above, in the order of each file. *)
Definition Pandas_cells : list (M unit) :=
  [cell_Pandas_23; cell_Pandas_30; cell_Pandas_36; cell_Pandas_497;
   cell_Pandas_562; cell_Pandas_567; cell_Pandas_573; cell_Pandas_584;
   cell_Pandas_785; cell_Pandas_1053].

Definition TempsMemoire_cells : list (M unit) :=
  [cell_TempsMemoire_256; cell_TempsMemoire_327; cell_TempsMemoire_333;
   cell_TempsMemoire_352; cell_TempsMemoire_423; cell_TempsMemoire_468;
   cell_TempsMemoire_497].

(** ** Reading the log *)

Fixpoint stmts_of (l : list event) : list nat :=
  match l with
  | [] => []
  | EvStmt n :: rest => n :: stmts_of rest
  | _ :: rest => stmts_of rest
  end.

Fixpoint ops_of (l : list event) : list operator :=
  match l with
  | [] => []
  | EvOp o :: rest => o :: ops_of rest
  | _ :: rest => ops_of rest
  end.

Fixpoint calls_of (l : list event) : list string :=
  match l with
  | [] => []
  | EvCall f :: rest => f :: calls_of rest
  | _ :: rest => calls_of rest
  end.

Fixpoint io_of (l : list event) : list io :=
  match l with
  | [] => []
  | EvIO x :: rest => x :: io_of rest
  | _ :: rest => io_of rest
  end.

(** ** The log of one turn of the loop of [blobl_func] *)

(** The accumulator is the int [0] before the first turn and a float
    afterwards. *)
Definition accumulator (a : pyobj) : Prop :=
  a = PyInt 0 \/ exists f, a = PyFloat f.

Definition turn_log : list event :=
  [EvStmt 489; EvIO Stdout; EvStmt 490; EvOp OpTrueDiv; EvOp OpAdd].
Definition last_turn_log : list event :=
  [EvStmt 489; EvIO Stdout; EvStmt 490; EvOp OpTrueDiv].

(** ** Concrete worlds *)

(** A library in which every routine succeeds: a graph of two nodes
    and three edges, a table read from any CSV text, and for the other
    routines the call itself as the value. *)
Definition demo_library (fn : string) (args : list pyobj) : result pyobj :=
  if String.eqb fn "Graph.number_of_edges" then Ok (PyInt 3)
  else if String.eqb fn "Graph.number_of_nodes" then Ok (PyInt 2)
  else if String.eqb fn "pd.read_csv" then
    Ok (PyFrame [("Age", PySeries "float64" [])])
  else Ok (PyLib fn args).

Definition url_titanic : string :=
  "http://josephsalmon.eu/enseignement/datasets/titanic.csv".
Definition url_bikes : string :=
  "https://koumoul.com/s/data-fair/api/v1/datasets/accidents-velos/raw".

(** A fresh working directory, the two data sets and the map service on
    line, and the tables the later cells of [Pandas.py] find in the
    namespace. *)
Definition demo_world : world :=
  World ∅
    {[ url_titanic := "PassengerId,Survived,Pclass";
       url_bikes := "date,heure,departement";
       place_montpellier := "{}";
       place_origin := "{}";
       place_destination := "{}" ]}
    demo_library ∅ false
    {[ "df_titanic" := PyFrame [("Age", PySeries "float64" [])];
       "polution_df" :=
         PyFrame [("date", PySeries "object" [PyStr "21/04/2008"; PyStr "21/04/2008"]);
                  ("heure", PySeries "object" [PyStr "1"; PyStr "24"])];
       "df_bikes" := PyFrame [];
       "df_dtp_pop" := PyFrame [("Population", PySeries "int64" [])];
       "df_dtp_area" := PyFrame [("SUPERFICIE (km²)", PySeries "float64" [])];
       "G" := PyLib "MultiDiGraph" [] ]}
    [].

(** The same with [force.json] in the working directory. *)
Definition demo_world_json : world :=
  set_disk (<["force.json" := "{}"]> (disk demo_world)) demo_world.

(** ** What the specification says of a run *)

Definition is_ok {A} (o : result A) : Prop :=
  match o with Ok _ => True | Raise _ => False end.

(** "A single direct call into a library": the run evaluates no
    operator of the script's own and passes no statement twice. *)
Definition library_calls_only (l : list event) : Prop :=
  ops_of l = [] /\ NoDup (stmts_of l).

(** "Executed exactly once": each statement line of the source text
    occurs once in the run. *)
Definition executed_once (lines : list nat) (l : list event) : Prop :=
  forall n, In n lines -> count_occ Nat.eq_dec (stmts_of l) n = 1%nat.

(** The channels the specification lists: local files read, fixed URLs
    downloaded, figures displayed. *)
Definition listed_io (x : io) : bool :=
  match x with
  | FileRead _ | HttpGet _ | Display _ => true
  | _ => false
  end.

(** The channels the modelled cells use. *)
Definition used_io (x : io) : bool :=
  match x with
  | FileRead p =>
      String.eqb p "titanic.csv" || String.eqb p "force.json"
      || String.prefix "cache/" p
  | HttpGet u => String.eqb u url_titanic || String.eqb u url_bikes
  | Display _ => true
  | Stdout => true
  | Debugger => true
  | FileWrite p =>
      String.eqb p "./titanic.csv" || String.eqb p "./bicycle_db.csv"
      || String.prefix "cache/" p
  | TempFileWrite => true
  | WebQuery s _ => String.eqb s "OpenStreetMap"
  end.

Definition event_io_used (e : event) : Prop :=
  match e with
  | EvIO x => used_io x = true
  | _ => True
  end.

(** "Only calls pre-built library routines": no operator of the
    script's own is evaluated. *)
Definition no_own_operator {A} (c : M A) : Prop :=
  forall w, ops_of (emitted (c w)) = [].

(** "Transient": a step leaves the local disk as it found it. *)
Definition transient {A} (c : M A) : Prop :=
  forall w, disk (final (c w)) = disk w.

(** "No step mutates state that a later step reads": what the later
    step does is the same whether the earlier one ran or not. *)
Definition independent {A B} (earlier : M A) (later : M B) : Prop :=
  forall w, outcome (later (final (earlier w))) = outcome (later w).

(** The full log of the last cell of [TempsMemoire.py]. *)
Definition log_cell_TempsMemoire_497 : list event :=
  EvStmt 497 :: EvStmt 487 :: EvStmt 488
    :: concat (List.repeat turn_log 4) ++ last_turn_log.

(** The statement lines of the cells with control flow, as the source
    text has them. *)
Definition lines_cell_Pandas_1053 : list nat :=
  [1053; 1056; 1059; 1060; 1061; 1062; 1064; 1065; 1066; 1068;
   1071; 1072; 1073; 1074; 1075; 1076]%nat.
Definition lines_blobl_func : list nat := [487; 488; 489; 490; 492]%nat.

(** [n, n-1, ..., 1] *)
Fixpoint countdown (n : nat) : list Z :=
  match n with
  | O => []
  | S k => Z.of_nat n :: countdown k
  end.

(** A row of the [heure] column as the file has it: the text of an
    hour from 1 to 24. *)
Definition hour_row (v : pyobj) : Prop :=
  exists s h, v = PyStr s /\ int_of_str s = Some h /\ 1 <= h <= 24.

(** The value of [np.arange(0, 90, 10)]. *)
Definition bins_0_90_10 : pyobj :=
  PyLib "ndarray" (map PyInt [0; 10; 20; 30; 40; 50; 60; 70; 80]).

(** ** The full logs of the cells *)

(** [runs_along L c]: in every world the log of [c] is [L], cut short
    where a step raises; working directory, web and library are left as
    they were. *)
Definition runs_along {A} (L : list event) (c : M A) : Prop :=
  forall w,
    (emitted (c w) `prefix_of` L) /\
    (is_ok (outcome (c w)) -> emitted (c w) = L) /\
    (disk (final (c w)) = disk w) /\
    (web (final (c w)) = web w) /\
    (library (final (c w)) = library w).

Definition log_cell_Pandas_23 : list event := [EvStmt 23].

Definition log_cell_Pandas_36 : list event :=
  [EvStmt 36; EvCall "pd.read_csv"; EvIO (FileRead "titanic.csv")].

Definition log_cell_Pandas_497 : list event :=
  [EvStmt 497; EvCall "DataFrame.__getitem__"; EvCall "np.arange"; EvCall "pd.cut";
   EvCall "DataFrame.__setitem__"; EvStmt 498; EvCall "DataFrame.__getitem__"].

Definition log_cell_Pandas_562 : list event :=
  [EvStmt 562; EvCall "DataFrame.__getitem__"; EvCall "Series.astype";
   EvCall "DataFrame.__setitem__"; EvStmt 563; EvCall "DataFrame.__getitem__"].

Definition log_cell_Pandas_567 : list event :=
  [EvStmt 567; EvCall "DataFrame.__getitem__"; EvCall "Series.__sub__";
   EvCall "DataFrame.__setitem__"; EvStmt 568; EvCall "DataFrame.__getitem__"].

Definition log_cell_Pandas_573 : list event :=
  [EvStmt 573; EvCall "DataFrame.__getitem__"; EvCall "Series.astype";
   EvCall "DataFrame.__setitem__"; EvStmt 574; EvCall "DataFrame.__getitem__"].

Definition log_cell_Pandas_584 : list event :=
  [EvStmt 584; EvCall "DataFrame.__getitem__"; EvCall "Series.__add__";
   EvCall "DataFrame.__getitem__"; EvCall "Series.__add__"; EvCall "Series.__add__";
   EvCall "pd.to_datetime"; EvStmt 589].

Definition log_cell_Pandas_1053 : list event :=
  [EvStmt 1053; EvCall "pygal.maps.fr.Departments"; EvStmt 1056;
   EvStmt 1059; EvOp OpIs;
   EvStmt 1060;
   EvStmt 1061; EvCall "DataFrame.groupby"; EvCall "GroupBy.size";
   EvStmt 1062; EvCall "DataFrame.__getitem__"; EvCall "Series.__truediv__";
   EvStmt 1071; EvStmt 1072; EvOp OpIs;
   EvStmt 1073; EvCall "DataFrame.__getitem__"; EvCall "Series.__truediv__";
   EvStmt 1074; EvCall "Series.dropna";
   EvStmt 1075; EvCall "Series.to_dict"; EvCall "Graph.add";
   EvStmt 1076; EvCall "Graph.render_in_browser"; EvIO TempFileWrite;
   EvIO (Display "browser")].

Definition log_cell_TempsMemoire_256 : list event :=
  [EvStmt 256; EvCall "open"; EvIO (FileRead "force.json");
   EvStmt 257; EvCall "json.load"; EvCall "file.close"].

Definition log_cell_TempsMemoire_327 : list event :=
  [EvStmt 327; EvCall "ox.utils.config"].

Definition log_cell_TempsMemoire_423 : list event :=
  [EvStmt 423; EvCall "Graph.number_of_edges"; EvOp OpMul;
   EvCall "Graph.number_of_nodes"; EvOp OpPow; EvOp OpTrueDiv; EvIO Stdout].

Definition log_cell_TempsMemoire_468 : list event :=
  [EvStmt 474; EvStmt 469; EvStmt 470; EvCall "pdb.set_trace"; EvIO Debugger;
   EvStmt 471; EvOp OpAdd; EvStmt 472].

(** The download cells: the log when the file is fetched. *)
Definition log_cell_Pandas_30 : list event :=
  [EvStmt 30; EvStmt 31; EvStmt 32; EvCall "download";
   EvIO (HttpGet url_titanic); EvIO (FileWrite "./titanic.csv")].

Definition log_cell_Pandas_785 : list event :=
  [EvStmt 785; EvStmt 786; EvStmt 787; EvCall "download";
   EvIO (HttpGet url_bikes); EvIO (FileWrite "./bicycle_db.csv")].

(** ** Reasoning about runs *)

(** The postcondition behind [runs_along]. *)
Definition wp_post {A} (L : list event) (w : world)
    (o : result A) (w' : world) (l : list event) : Prop :=
  (l `prefix_of` L) /\ (is_ok o -> l = L) /\
  (disk w' = disk w) /\ (web w' = web w) /\ (library w' = library w).


(** [wp c w Q]: the run of [c] from [w] satisfies [Q]. *)
Definition wp {A} (c : M A) (w : world) (Q : result A -> world -> list event -> Prop) : Prop :=
  Q (outcome (c w)) (final (c w)) (emitted (c w)).

(** ** Rows of the column [heure]

    The [int8] values, [-128 .. 127]. *)
Definition int8_values : list Z := map (fun k : nat => Z.of_nat k - 128) (seq 0 256).

(** What the three conversion steps make of one row, read row by row. *)
Definition hour_shift (v : pyobj) : result pyobj :=
  match to_int8 v with
  | Raise e => Raise e
  | Ok a =>
      match int8_sub 1 a with
      | Raise e => Raise e
      | Ok b => elem_to_str b
      end
  end.

(** Equality of two optional integers. *)
Definition option_Z_eqb (a b : option Z) : bool :=
  match a, b with
  | Some x, Some y => x =? y
  | None, None => true
  | _, _ => false
  end.

(** A row of text whose integer, when it has one, fits a C [long]. *)
Definition text_row (v : pyobj) : Prop :=
  exists s, v = PyStr s /\
            match int_of_str s with
            | Some h => - 2 ^ 63 <= h < 2 ^ 63
            | None => True
            end.

(** A row of text that is not an integer. *)
Definition bad_row (v : pyobj) : Prop :=
  exists s, v = PyStr s /\ int_of_str s = None.

(** An [int8] value. *)
Definition int8_row (v : pyobj) : Prop :=
  exists n, v = PyInt n /\ -128 <= n <= 127.

(** ** Further worlds

    [demo_world] with other tables in the namespace: a missing value in
    the column [heure]; the hours 0 and 24; a column already of type
    [int8]. *)
Definition demo_world_gap : world :=
  set_globals
    (<["polution_df" := PyFrame [("heure", PySeries "object" [PyStr "1"; PyStr "n/d"])]]>
       (globals demo_world))
    demo_world.

Definition demo_world_midnight : world :=
  set_globals
    (<["polution_df" := PyFrame [("heure", PySeries "object" [PyStr "0"; PyStr "24"])]]>
       (globals demo_world))
    demo_world.

Definition demo_world_int8 : world :=
  set_globals
    (<["polution_df" := PyFrame [("heure", PySeries "int8" [PyInt 0; PyInt (-128); PyInt 127])]]>
       (globals demo_world))
    demo_world.

(** No network, with a fresh working directory and with [titanic.csv]
    already there. *)
Definition demo_world_offline : world :=
  World ∅ ∅ demo_library ∅ false (globals demo_world) [].

Definition demo_world_offline_kept : world :=
  set_disk (<["titanic.csv" := "PassengerId,Survived,Pclass"]> ∅) demo_world_offline.

(** ** Further cells of [Pandas.py]

    line 420: [pd.read_csv('babies23.data', skiprows=38, sep='\s+')] *)
Definition cell_Pandas_420 : M unit :=
  stmt 420 (pd_read_csv "babies23.data" [PyInt 38; PyStr "\s+"] ;; ret tt).

(** [del df[col]] on the frame bound to the global [name]: every column
    of that label goes; a label the frame does not have is a
    [KeyError]. *)
Fixpoint assoc_del (k : string) (cols : list (string * pyobj))
  : list (string * pyobj) :=
  match cols with
  | [] => []
  | (k', v) :: rest =>
      if String.eqb k k' then assoc_del k rest else (k', v) :: assoc_del k rest
  end.

Definition frame_delitem (name col : string) : M unit :=
  df ← load name;
  emit (EvCall "DataFrame.__delitem__") ;;
  match df with
  | PyFrame cols =>
      match assoc_get col cols with
      | Some _ => store name (PyFrame (assoc_del col cols))
      | None => raise (KeyError col)
      end
  | _ => raise TypeError
  end.

(** lines 600-604 *)
Definition cell_Pandas_600 : M unit :=
  stmt 600 (t ← load "time_improved"; frame_setitem "polution_df" "DateTime" t) ;;
  stmt 603 (frame_delitem "polution_df" "heure") ;;
  stmt 604 (frame_delitem "polution_df" "date").

(** [demo_world] without the table [df_bikes]. *)
Definition demo_world_no_bikes : world :=
  set_globals (delete "df_bikes" (globals demo_world)) demo_world.

(** The cache of osmnx switched on; then the working directory the
    street-graph cell leaves, with no network. *)
Definition demo_world_cache_on : world := set_ox_use_cache true demo_world.

Definition demo_world_cache_offline : world :=
  World (disk (final (cell_TempsMemoire_333 demo_world_cache_on)))
        ∅ demo_library ∅ true ∅ [].

(** [demo_world] after the cell that binds [time_improved]. *)
Definition demo_world_timed : world :=
  set_globals (<["time_improved" := PyLib "DatetimeIndex" []]> (globals demo_world))
    demo_world.

(** ** Months, lines 732-745, 771 and 994-1015 *)

(** [calendar.month_name] and [calendar.month_abbr] (no locale is set:
    the names are the English ones). *)
Definition month_name : list string :=
  [""; "January"; "February"; "March"; "April"; "May"; "June"; "July";
   "August"; "September"; "October"; "November"; "December"].
Definition month_abbr : list string :=
  [""; "Jan"; "Feb"; "Mar"; "Apr"; "May"; "Jun"; "Jul"; "Aug"; "Sep"; "Oct";
   "Nov"; "Dec"].

(** [l[i]]: a negative index counts from the end; [None] is
    [IndexError]. *)
Definition py_index {A} (l : list A) (i : Z) : option A :=
  let n := Z.of_nat (length l) in
  if (0 <=? i) && (i <? n) then nth_error l (Z.to_nat i)
  else if (- n <=? i) && (i <? 0) then nth_error l (Z.to_nat (n + i))
  else None.

(** [lambda x: calendar.month_abbr[x]], lines 733-734 and 995 *)
Definition lambda_Pandas_995 (x : pyobj) : result pyobj :=
  match x with
  | PyInt m =>
      match py_index month_abbr m with
      | Some s => Ok (PyStr s)
      | None => Raise (LibError "IndexError")
      end
  | _ => Raise TypeError
  end.

(** [s.apply(f)] *)
Definition series_apply (f : pyobj -> result pyobj) (s : pyobj) : M pyobj :=
  emit (EvCall "Series.apply") ;;
  match s with
  | PySeries _ xs => ys ← lift (traverse f xs); ret (PySeries "object" ys)
  | _ => raise TypeError
  end.

(** The keys of [groupby] on a column of text come out sorted, each
    once: these are the columns after [unstack(level=0)], and
    [DataFrame.plot] draws one curve per column in that order. *)
Fixpoint insert_key (a : string) (l : list string) : list string :=
  match l with
  | [] => [a]
  | b :: rest =>
      match String.compare a b with
      | Lt => a :: l
      | Eq => l
      | Gt => b :: insert_key a rest
      end
  end.

(** The keys of a column, sorted, each once. *)
Definition sorted_unique (l : list string) : list string :=
  fold_right insert_key [] l.

(** The columns of [groupby(['month', ...])[...].count().unstack(level=0)],
    from the texts of the column [month]. *)
Definition month_columns (texts : list string) : list string :=
  sorted_unique texts.

(** [axes.legend(labels=calendar.month_name[1:], ...)]: the labels go
    to the curves in the order these were drawn. *)
Definition legend_Pandas_1014 (curves : list string) : list (string * string) :=
  combine curves (tl month_name).

(** The months in alphabetical order of their abbreviation. *)
Definition months_by_abbr : list string :=
  ["Apr"; "Aug"; "Dec"; "Feb"; "Jan"; "Jul"; "Jun"; "Mar"; "May"; "Nov"; "Oct"; "Sep"].

(** line 995 *)
Definition cell_Pandas_995 : M unit :=
  stmt 995 (df ← load "df_bikes";
            month ← frame_getitem df "month";
            month ← series_apply lambda_Pandas_995 month;
            frame_setitem "df_bikes" "month" month).

(** [x in l] *)
Definition has (l : list string) (x : string) : bool := existsb (String.eqb x) l.

(** A table of accidents with rows in every month. *)
Definition demo_world_months : world :=
  set_globals
    (<["df_bikes" :=
         PyFrame [("month", PySeries "int64"
                     (map PyInt [12; 1; 2; 3; 4; 5; 6; 7; 8; 9; 10; 11; 12]))]]>
       (globals demo_world))
    demo_world.

(** ** The text given to [pd.to_datetime]

    The text lines 584-585 build from a date and an hour. *)
Definition date_hour_text (d h : string) : pyobj := PyStr (((d ++ " ") ++ h) ++ ":00").

(** Rows of text, paired. *)
Fixpoint date_hour_rows (ds hs : list string) : list pyobj :=
  match ds, hs with
  | d :: ds', h :: hs' => date_hour_text d h :: date_hour_rows ds' hs'
  | _, _ => []
  end.

(** [demo_world] after the first two conversion cells: the hours are
    [int8] values. *)
Definition demo_world_int8_hours : world :=
  final (run_cells [cell_Pandas_562; cell_Pandas_567] demo_world).

(** lines 793-794: [pd.read_csv("bicycle_db.csv", na_values="",
    converters={'data': str, 'heure': str})] *)
Definition kwargs_Pandas_793 : list pyobj :=
  [PyStr ""; PyList [PyStr "data"; PyStr "heure"]].

(** line 793 *)
Definition cell_Pandas_793 : M unit :=
  stmt 793 (df ← pd_read_csv "bicycle_db.csv" kwargs_Pandas_793; store "df_bikes" df).

(** * Properties *)

Section Wp.
Context {A B : Type}.
Implicit Types (w : world) (c : M A) (k : A -> M B).

Lemma wp_bind c k w (Q : result B -> world -> list event -> Prop) :
  wp c w (fun o w1 l1 =>
    match o with
    | Ok a => wp (k a) w1 (fun o2 w2 l2 => Q o2 w2 (l1 ++ l2))
    | Raise e => Q (Raise e) w1 l1
    end) ->
  wp (c ≫= k) w Q.
Proof.
  unfold wp, mbind, M_bind, bind.
  destruct (c w) as [[a | e] w1 l1]; cbn; [| tauto].
  destruct (k a w1); cbn; tauto.
Qed.

Lemma wp_ret (a : A) w (Q : result A -> world -> list event -> Prop) :
  Q (Ok a) w [] -> wp (ret a) w Q.
Proof. exact id. Qed.

Lemma wp_mret (a : A) w (Q : result A -> world -> list event -> Prop) :
  Q (Ok a) w [] -> wp (mret a) w Q.
Proof. exact id. Qed.

Lemma wp_raise e w (Q : result A -> world -> list event -> Prop) :
  Q (Raise e) w [] -> wp (raise e) w Q.
Proof. exact id. Qed.

Lemma wp_lift (r : result A) w (Q : result A -> world -> list event -> Prop) :
  Q r w [] -> wp (lift r) w Q.
Proof. exact id. Qed.
End Wp.

Lemma wp_emit e w (Q : result unit -> world -> list event -> Prop) :
  Q (Ok tt) w [e] -> wp (emit e) w Q.
Proof. exact id. Qed.

Lemma wp_get w (Q : result world -> world -> list event -> Prop) :
  Q (Ok w) w [] -> wp get w Q.
Proof. exact id. Qed.

Lemma wp_modify f w (Q : result unit -> world -> list event -> Prop) :
  Q (Ok tt) (f w) [] -> wp (modify f) w Q.
Proof. exact id. Qed.

Lemma wp_with {H A} (enter : M H) leave (body : H -> M A) w
    (Q : result A -> world -> list event -> Prop) :
  wp enter w (fun o w1 l1 =>
    match o with
    | Raise e => Q (Raise e) w1 l1
    | Ok h =>
        wp (body h) w1 (fun ob w2 l2 =>
          wp (leave h) w2 (fun ol w3 l3 =>
            Q (match ob, ol with
               | Raise e, _ => Raise e
               | Ok _, Raise e => Raise e
               | Ok a, Ok _ => Ok a
               end) w3 (l1 ++ l2 ++ l3)))
    end) ->
  wp (with_ enter leave body) w Q.
Proof.
  unfold wp, with_.
  destruct (enter w) as [[h | e] w1 l1]; cbn; [| tauto].
  destruct (body h w1) as [ob w2 l2]; cbn.
  destruct (leave h w2) as [ol w3 l3]; cbn. tauto.
Qed.

Lemma wp_stmt {A} n (c : M A) w (Q : result A -> world -> list event -> Prop) :
  wp c w (fun o w' l => Q o w' (EvStmt n :: l)) -> wp (stmt n c) w Q.
Proof.
  intros H. unfold stmt. apply wp_bind, wp_emit. exact H.
Qed.

Lemma wp_load x w (Q : result pyobj -> world -> list event -> Prop) :
  match globals w !! x with
  | Some v => Q (Ok v) w []
  | None => Q (Raise (NameError x)) w []
  end ->
  wp (load x) w Q.
Proof.
  intros H. unfold load. apply wp_bind, wp_get.
  destruct (globals w !! x); exact H.
Qed.

Lemma wp_store x v w (Q : result unit -> world -> list event -> Prop) :
  Q (Ok tt) (set_globals (<[x := v]> (globals w)) w) [] -> wp (store x v) w Q.
Proof. exact id. Qed.

Lemma wp_call fn args w (Q : result pyobj -> world -> list event -> Prop) :
  match library w fn args with
  | Ok v => Q (Ok v) w [EvCall fn]
  | Raise e => Q (Raise e) w [EvCall fn]
  end ->
  wp (call fn args) w Q.
Proof.
  intros H. unfold call. apply wp_bind, wp_emit, wp_bind, wp_get.
  unfold wp, lift. cbn. destruct (library w fn args); exact H.
Qed.

(** One step of symbolic execution. *)
Ltac wp_simpl :=
  cbv beta iota;
  cbn [globals disk web library options stdout ox_use_cache
       set_globals set_disk set_options set_stdout set_ox_use_cache
       normpath cache_path String.append
       place_origin place_destination place_montpellier].

Lemma assoc_get_set_eq k v cols : assoc_get k (assoc_set k v cols) = Some v.
Proof.
  induction cols as [| [k' v'] cols IH]; cbn.
  - rewrite String.eqb_refl. reflexivity.
  - destruct (String.eqb k k') eqn:E; cbn; rewrite ?String.eqb_refl, ?E; auto.
Qed.

Lemma assoc_set_set k v1 v2 cols :
  assoc_set k v2 (assoc_set k v1 cols) = assoc_set k v2 cols.
Proof.
  induction cols as [| [k' v'] cols IH]; cbn.
  - rewrite String.eqb_refl. reflexivity.
  - destruct (String.eqb k k') eqn:E; cbn; rewrite ?String.eqb_refl, ?E, ?IH; auto.
Qed.

Ltac simpl_scrutinee x :=
  match goal with
  | H : x = _ |- _ => rewrite H
  | _ =>
    lazymatch x with
    | @lookup _ _ _ _ ?k (@insert _ _ _ _ ?k ?v ?m) =>
        rewrite (lookup_insert_eq m k v)
    | @lookup _ _ _ _ ?j (@insert _ _ _ _ ?i ?v ?m) =>
        rewrite (lookup_insert_ne m i j v) by discriminate
    | assoc_get ?k (assoc_set ?k ?v ?c) => rewrite (assoc_get_set_eq k v c)
    | _ =>
        let T := type of x in
        lazymatch T with bool => idtac end;
        let v := eval cbv in x in
        lazymatch v with
        | true => change x with true
        | false => change x with false
        end
    end
  end.

Ltac head_of t := lazymatch t with ?f _ => head_of f | _ => t end.

Ltac wp_step :=
  wp_simpl;
  match goal with
  | |- wp (?f _) _ _ => is_var f; unfold f; clear f
  | |- ?q _ _ _ => is_var q; unfold q; clear q
  | |- wp (mbind ?k _) _ ?Q =>
      let K := fresh "K" in
      set (K := k);
      tryif is_var Q then idtac else (let Q' := fresh "Q" in set (Q' := Q));
      apply wp_bind
  | |- wp (ret _) _ _ => apply wp_ret
  | |- wp (mret _) _ _ => apply wp_mret
  | |- wp (raise _) _ _ => apply wp_raise
  | |- wp (lift _) _ _ => apply wp_lift
  | |- wp (emit _) _ _ => apply wp_emit
  | |- wp get _ _ => apply wp_get
  | |- wp (modify _) _ _ => apply wp_modify
  | |- wp (with_ _ _ _) _ _ => apply wp_with
  | |- wp (stmt _ _) _ _ => apply wp_stmt
  | |- wp (load _) _ _ => apply wp_load
  | |- wp (store _ _) _ _ => apply wp_store
  | |- wp (call _ _) _ _ => apply wp_call
  | |- wp (match (match ?y with _ => _ end) with _ => _ end) _ _ =>
      first [simpl_scrutinee y | destruct y eqn:?]
  | |- match (match ?y with _ => _ end) with _ => _ end =>
      first [simpl_scrutinee y | destruct y eqn:?]
  | |- wp (match ?x with _ => _ end) _ _ => first [simpl_scrutinee x | destruct x eqn:?]
  | |- match ?x with _ => _ end => first [simpl_scrutinee x | destruct x eqn:?]
  | |- wp (run_cells _) _ _ => cbn [run_cells]
  | |- wp ?c _ _ => let h := head_of c in progress unfold h
  end.

Ltac wp_run := repeat wp_step; wp_simpl.

Ltac closed_Forall :=
  repeat (apply List.Forall_cons; [vm_compute; first [exact I | reflexivity] |]);
  apply List.Forall_nil.

Ltac wp_done :=
  cbn [app is_ok];
  repeat match goal with
         | |- _ /\ _ => split
         | |- _ `prefix_of` _ => eexists; reflexivity
         | |- List.Forall _ _ => closed_Forall
         | |- is_ok (Raise _) -> _ => intros []
         | |- False -> _ => intros []
         | |- _ -> _ => intros _
         | |- _ !! _ = Some _ => apply lookup_insert_eq
         | |- _ = _ => reflexivity
         end.

Ltac wp_auto := intros w; unfold wp_post; wp_run; wp_done.

(** ** Arithmetic of the two functions *)

Lemma overflow_threshold_large : 2 ^ 80 < overflow_threshold.
Proof. reflexivity. Qed.

Lemma int_truediv_small a b :
  b <> 0 -> Z.abs a < 2 ^ 80 ->
  int_truediv a b = Ok (SFdiv prec emax (Z2SF a) (Z2SF b)).
Proof.
  intros Hb Ha. unfold int_truediv.
  destruct (Z.eqb_spec b 0) as [-> | _]; [congruence |].
  pose proof overflow_threshold_large as Ht.
  destruct (Z.leb_spec (Z.abs b * overflow_threshold) (Z.abs a)) as [Hle | _];
    [| reflexivity].
  exfalso.
  assert (1 <= Z.abs b) by lia.
  assert (overflow_threshold <= Z.abs b * overflow_threshold) by nia.
  lia.
Qed.

(** ** The loop of [blobl_func] *)

Lemma range_length_down x : 0 <= x -> range_length x (-1) (-1) = x + 1.
Proof.
  intros Hx. unfold range_length. cbn [Z.ltb Z.compare Z.opp].
  destruct (Z.ltb_spec (-1) x) as [_ | ?]; [| lia].
  replace (x - -1 - 1) with x by lia. rewrite Z.div_1_r. reflexivity.
Qed.

Lemma map_countdown (n : nat) :
  map (fun k : nat => Z.of_nat n + Z.of_nat k * -1) (seq 0 (S n))
  = countdown n ++ [0].
Proof.
  induction n as [| n IH].
  - reflexivity.
  - rewrite <- cons_seq, <- seq_shift, map_cons, map_map.
    cbn [countdown app]. f_equal; try lia.
    rewrite <- IH. apply map_ext. intros k. lia.
Qed.

Lemma py_range_down x :
  0 <= x -> py_range x (-1) (-1) = ret (countdown (Z.to_nat x) ++ [0]).
Proof.
  intros Hx. unfold py_range. cbn [Z.eqb].
  rewrite range_length_down by assumption.
  replace (Z.to_nat (x + 1)) with (S (Z.to_nat x)) by lia.
  rewrite <- map_countdown. f_equal.
  apply map_ext. intros k. lia.
Qed.

Lemma py_range_empty x : x < 0 -> py_range x (-1) (-1) = ret [].
Proof.
  intros Hx. unfold py_range, range_length. cbn [Z.eqb Z.ltb Z.compare Z.opp].
  destruct (Z.ltb_spec (-1) x) as [? | _]; [lia | reflexivity].
Qed.

Lemma blobl_body_nonzero i a w :
  i <> 0 -> accumulator a ->
  exists f, blobl_body i a w
            = Run (Ok (PyFloat f)) (set_stdout (stdout w ++ [PyInt i]) w) turn_log.
Proof.
  intros Hi Ha.
  assert (Hq : int_truediv 1 i = Ok (SFdiv prec emax (Z2SF 1) (Z2SF i)))
    by (apply int_truediv_small; [assumption | reflexivity]).
  unfold blobl_body, stmt, print, py_truediv, py_add, mbind, M_bind, bind,
    emit, modify, lift, ret.
  rewrite Hq. destruct Ha as [-> | [f ->]]; cbn; eexists; reflexivity.
Qed.

Lemma blobl_body_zero a w :
  blobl_body 0 a w
  = Run (Raise ZeroDivisionError) (set_stdout (stdout w ++ [PyInt 0]) w) last_turn_log.
Proof. reflexivity. Qed.

Lemma set_stdout_twice o1 o2 w : set_stdout o2 (set_stdout o1 w) = set_stdout o2 w.
Proof. reflexivity. Qed.

Lemma blobl_loop (n : nat) : forall a w,
  accumulator a ->
  for_each (countdown n ++ [0]) a blobl_body w
  = Run (Raise ZeroDivisionError)
        (set_stdout (stdout w ++ map PyInt (countdown n ++ [0])) w)
        (concat (List.repeat turn_log n) ++ last_turn_log).
Proof.
  induction n as [| n IH]; intros a w Ha.
  - cbn [countdown app for_each]. unfold mbind, M_bind, bind.
    rewrite blobl_body_zero. reflexivity.
  - cbn [countdown app for_each List.repeat concat]. unfold mbind, M_bind, bind.
    destruct (blobl_body_nonzero (Z.of_nat (S n)) a w) as [f Hf];
      [lia | assumption |].
    rewrite Hf, IH by (right; eauto).
    cbn [stdout set_stdout map]. rewrite set_stdout_twice, <- !app_assoc.
    reflexivity.
Qed.

Lemma blobl_func_nonneg x w :
  0 <= x ->
  blobl_func x w
  = Run (Raise ZeroDivisionError)
        (set_stdout (stdout w ++ map PyInt (countdown (Z.to_nat x) ++ [0])) w)
        (EvStmt 487 :: EvStmt 488
           :: concat (List.repeat turn_log (Z.to_nat x)) ++ last_turn_log).
Proof.
  intros Hx. unfold blobl_func. rewrite py_range_down by assumption.
  unfold stmt, mbind, M_bind, bind, emit, ret. cbn [app].
  rewrite blobl_loop by (left; reflexivity). reflexivity.
Qed.

Lemma blobl_func_negative x w :
  x < 0 ->
  blobl_func x w = Run (Ok (PyInt 0)) w [EvStmt 487; EvStmt 488; EvStmt 492].
Proof.
  intros Hx. unfold blobl_func. rewrite py_range_empty by assumption.
  reflexivity.
Qed.

Lemma ops_of_app l1 l2 : ops_of (l1 ++ l2) = ops_of l1 ++ ops_of l2.
Proof.
  induction l1 as [| [] l1 IH]; cbn; rewrite ?IH; reflexivity.
Qed.

Lemma stmts_of_app l1 l2 : stmts_of (l1 ++ l2) = stmts_of l1 ++ stmts_of l2.
Proof.
  induction l1 as [| [] l1 IH]; cbn; rewrite ?IH; reflexivity.
Qed.

Lemma calls_of_app l1 l2 : calls_of (l1 ++ l2) = calls_of l1 ++ calls_of l2.
Proof.
  induction l1 as [| [] l1 IH]; cbn; rewrite ?IH; reflexivity.
Qed.


Lemma ops_of_turns n :
  ops_of (concat (List.repeat turn_log n)) = concat (List.repeat [OpTrueDiv; OpAdd] n).
Proof.
  induction n as [| n IH]; [reflexivity |].
  cbn [List.repeat concat]. rewrite ops_of_app, IH. reflexivity.
Qed.

Lemma stmts_of_turns n :
  stmts_of (concat (List.repeat turn_log n)) = concat (List.repeat [489; 490]%nat n).
Proof.
  induction n as [| n IH]; [reflexivity |].
  cbn [List.repeat concat]. rewrite stmts_of_app, IH. reflexivity.
Qed.

Lemma calls_of_turns n : calls_of (concat (List.repeat turn_log n)) = [].
Proof.
  induction n as [| n IH]; [reflexivity |].
  cbn [List.repeat concat]. rewrite calls_of_app, IH. reflexivity.
Qed.



(** ** The logs of the cells *)

Lemma runs_along_wp {A} (L : list event) (c : M A) :
  (forall w, wp c w (wp_post L w)) -> runs_along L c.
Proof. intros H w. exact (H w). Qed.

Lemma cell_Pandas_23_log : runs_along log_cell_Pandas_23 cell_Pandas_23.
Proof. apply runs_along_wp. wp_auto. Qed.

Lemma cell_Pandas_36_log : runs_along log_cell_Pandas_36 cell_Pandas_36.
Proof. apply runs_along_wp. wp_auto. Qed.

Lemma cell_Pandas_497_log : runs_along log_cell_Pandas_497 cell_Pandas_497.
Proof. apply runs_along_wp. wp_auto. Qed.

Lemma cell_Pandas_562_log : runs_along log_cell_Pandas_562 cell_Pandas_562.
Proof. apply runs_along_wp. wp_auto. Qed.

Lemma cell_Pandas_567_log : runs_along log_cell_Pandas_567 cell_Pandas_567.
Proof. apply runs_along_wp. wp_auto. Qed.

Lemma cell_Pandas_573_log : runs_along log_cell_Pandas_573 cell_Pandas_573.
Proof. apply runs_along_wp. wp_auto. Qed.

Lemma cell_Pandas_584_log : runs_along log_cell_Pandas_584 cell_Pandas_584.
Proof. apply runs_along_wp. wp_auto. Qed.

Lemma cell_Pandas_1053_log : runs_along log_cell_Pandas_1053 cell_Pandas_1053.
Proof. apply runs_along_wp. wp_auto. Qed.

Lemma cell_TempsMemoire_256_log :
  runs_along log_cell_TempsMemoire_256 cell_TempsMemoire_256.
Proof. apply runs_along_wp. wp_auto. Qed.

Lemma cell_TempsMemoire_327_log :
  runs_along log_cell_TempsMemoire_327 cell_TempsMemoire_327.
Proof. apply runs_along_wp. wp_auto. Qed.

Lemma cell_TempsMemoire_333_events w :
  wp cell_TempsMemoire_333 w (fun _ _ l =>
    List.Forall event_io_used l /\ ops_of l = []).
Proof. wp_run; wp_done. Qed.

Lemma cell_TempsMemoire_352_events w :
  wp cell_TempsMemoire_352 w (fun _ _ l =>
    List.Forall event_io_used l /\ ops_of l = []).
Proof. wp_run; wp_done. Qed.

Lemma cell_TempsMemoire_423_log :
  runs_along log_cell_TempsMemoire_423 cell_TempsMemoire_423.
Proof. apply runs_along_wp. wp_auto. Qed.

Lemma cell_TempsMemoire_468_log :
  runs_along log_cell_TempsMemoire_468 cell_TempsMemoire_468.
Proof. apply runs_along_wp. wp_auto. Qed.

(** ** [illustrate_pdb] *)

(** C10. For every integer [x], [illustrate_pdb x] returns [42 + x]
    once the debugger prompt has been left with [c]: the world is
    unchanged, the prompt is the only input or output and the single
    operator evaluated is the addition.  The call of the script,
    [illustrate_pdb(12)], returns [54]. *)
Theorem illustrate_pdb_returns_42_plus_x (x : Z) (w : world) :
  outcome (illustrate_pdb (PyInt x) w) = Ok (PyInt (42 + x)) /\
  final (illustrate_pdb (PyInt x) w) = w /\
  io_of (emitted (illustrate_pdb (PyInt x) w)) = [Debugger] /\
  ops_of (emitted (illustrate_pdb (PyInt x) w)) = [OpAdd] /\
  outcome (illustrate_pdb (PyInt 12) w) = Ok (PyInt 54).
Proof. repeat split. Qed.

(** ** The hour conversion *)

Lemma traverse_lookup {A B} (f : A -> result B) xs ys (k : nat) x :
  traverse f xs = Ok ys -> xs !! k = Some x ->
  exists y, f x = Ok y /\ ys !! k = Some y.
Proof.
  revert ys k. induction xs as [| a xs IH]; intros ys k H Hk; [discriminate |].
  cbn in H. destruct (f a) as [b |] eqn:Ha; [| discriminate].
  destruct (traverse f xs) as [bs |] eqn:Hxs; [| discriminate].
  injection H as <-. destruct k as [| k]; cbn in Hk |- *.
  - injection Hk as <-. eauto.
  - eapply IH; eauto.
Qed.

Lemma traverse_total {A B} (f : A -> result B) (P : A -> Prop) (Q : B -> Prop) xs :
  (forall x, P x -> exists y, f x = Ok y /\ Q y) ->
  Forall P xs -> exists ys, traverse f xs = Ok ys /\ Forall Q ys.
Proof.
  intros Hf. induction 1 as [| a xs Ha _ [ys [IH HQ]]]; cbn.
  - eauto.
  - destruct (Hf a Ha) as [b [-> Hb]]. rewrite IH. eauto.
Qed.

Lemma wrap_int8_small n : -128 <= n < 128 -> wrap_int8 n = n.
Proof. intros H. unfold wrap_int8. rewrite Z.mod_small by lia. lia. Qed.

Lemma to_int8_hour s h :
  int_of_str s = Some h -> 1 <= h <= 24 -> to_int8 (PyStr s) = Ok (PyInt h).
Proof.
  intros Hs Hh. unfold to_int8. rewrite Hs.
  destruct (Z.leb_spec (- 2 ^ 63) h); [| lia].
  destruct (Z.ltb_spec h (2 ^ 63)); [| lia].
  cbn [andb]. rewrite wrap_int8_small by lia. reflexivity.
Qed.

Lemma hour_text_valid h :
  1 <= h <= 24 -> directive_H (str_of_int (h - 1)) = Some (h - 1).
Proof.
  intros H.
  assert (Hc : exists n : nat, (n < 24)%nat /\ h = Z.of_nat n + 1)
    by (exists (Z.to_nat (h - 1)); lia).
  destruct Hc as [n [Hn ->]].
  do 24 (destruct n as [| n]; [reflexivity |]). lia.
Qed.


Ltac use_eqns :=
  repeat match goal with
         | H : ?x = _ |- context [match ?x with _ => _ end] => rewrite H
         end.

Lemma heure_cells_run w cols dt xs :
  globals w !! "polution_df" = Some (PyFrame cols) ->
  assoc_get "heure" cols = Some (PySeries dt xs) ->
  wp heure_cells w (fun o w' _ =>
    match traverse to_int8 xs with
    | Raise e => o = Raise e
    | Ok ys1 =>
        match traverse (int8_sub 1) ys1 with
        | Raise e => o = Raise e
        | Ok ys2 =>
            match traverse elem_to_str ys2 with
            | Raise e => o = Raise e
            | Ok ys3 =>
                o = Ok tt /\
                globals w' !! "polution_df"
                = Some (PyFrame (assoc_set "heure" (PySeries "object" ys3) cols))
            end
        end
    end).
Proof.
  intros Hdf Hcol. wp_run; use_eqns; try reflexivity.
  split; [reflexivity |].
  rewrite lookup_insert_eq, !assoc_set_set. reflexivity.
Qed.



(** ** The download and read steps *)

Lemma cell_Pandas_30_within w : emitted (cell_Pandas_30 w) `prefix_of` log_cell_Pandas_30.
Proof.
  change (wp cell_Pandas_30 w (fun _ _ l => l `prefix_of` log_cell_Pandas_30)).
  wp_run; wp_done.
Qed.

Lemma cell_Pandas_785_within w : emitted (cell_Pandas_785 w) `prefix_of` log_cell_Pandas_785.
Proof.
  change (wp cell_Pandas_785 w (fun _ _ l => l `prefix_of` log_cell_Pandas_785)).
  wp_run; wp_done.
Qed.

Lemma cell_Pandas_30_fetched w body :
  disk w !! "titanic.csv" = None -> web w !! url_titanic = Some body ->
  wp cell_Pandas_30 w (fun o w' l =>
    o = Ok tt /\ l = log_cell_Pandas_30 /\
    disk w' = <["titanic.csv" := body]> (disk w) /\
    library w' = library w).
Proof.
  unfold url_titanic. intros Hd Hw. wp_run; wp_done.
Qed.

Lemma cell_Pandas_30_kept w text :
  disk w !! "titanic.csv" = Some text ->
  wp cell_Pandas_30 w (fun o w' l =>
    o = Ok tt /\ io_of l = [] /\ disk w' = disk w).
Proof.
  intros Hd. wp_run; wp_done.
Qed.

Lemma cell_Pandas_785_fetched w body :
  web w !! url_bikes = Some body ->
  wp cell_Pandas_785 w (fun o w' l =>
    o = Ok tt /\ l = log_cell_Pandas_785 /\
    disk w' = <["bicycle_db.csv" := body]> (disk w)).
Proof.
  unfold url_bikes. intros Hw. wp_run; wp_done.
Qed.

Lemma cell_Pandas_36_missing w :
  disk w !! "titanic.csv" = None ->
  wp cell_Pandas_36 w (fun o w' _ =>
    o = Raise (FileNotFoundError "titanic.csv") /\ globals w' = globals w).
Proof.
  intros Hd. wp_run; wp_done.
Qed.

Lemma cell_Pandas_36_present w text :
  disk w !! "titanic.csv" = Some text ->
  wp cell_Pandas_36 w (fun o w' _ =>
    match library w "pd.read_csv" [PyStr text] with
    | Ok df => o = Ok tt /\ globals w' !! "df_titanic_raw" = Some df
    | Raise e => o = Raise e /\ globals w' = globals w
    end).
Proof.
  intros Hd. wp_run; use_eqns; wp_done.
Qed.

Create HintDb cell_logs.
#[local] Hint Resolve cell_Pandas_23_log cell_Pandas_36_log cell_Pandas_497_log
  cell_Pandas_562_log cell_Pandas_567_log cell_Pandas_573_log cell_Pandas_584_log
  cell_Pandas_1053_log cell_TempsMemoire_256_log cell_TempsMemoire_327_log
  cell_TempsMemoire_423_log cell_TempsMemoire_468_log
  : cell_logs.

Lemma runs_along_transient {A} L (c : M A) : runs_along L c -> transient c.
Proof. intros H w. apply (H w). Qed.

Lemma cell_TempsMemoire_333_cached w text :
  ox_use_cache w = true ->
  disk w !! cache_path place_montpellier = None ->
  web w !! place_montpellier = Some text ->
  wp cell_TempsMemoire_333 w (fun _ w' l =>
    disk w' = <[cache_path place_montpellier := text]> (disk w) /\
    In (EvIO (FileWrite (cache_path place_montpellier))) l).
Proof.
  intros Hc Hd Hw. cbn [cache_path String.append place_montpellier] in *.
  wp_run; cbn [app]; split; try reflexivity; cbn; auto 10.
Qed.




(** ** State passed from one step to a later one *)

Lemma np_arange_0_90_10 :
  np_arange 0 90 10 = (emit (EvCall "np.arange") ;; ret bins_0_90_10).
Proof. reflexivity. Qed.

Lemma stmt_Pandas_497_run w cols age classes :
  globals w !! "df_titanic" = Some (PyFrame cols) ->
  assoc_get "Age" cols = Some age ->
  library w "pd.cut" [age; bins_0_90_10] = Ok classes ->
  wp stmt_Pandas_497 w (fun o w' _ =>
    o = Ok tt /\
    globals w' !! "df_titanic" = Some (PyFrame (assoc_set "AgeClass" classes cols))).
Proof.
  intros Hdf Hage Hcut. unfold stmt_Pandas_497. rewrite np_arange_0_90_10.
  wp_run; wp_done.
Qed.

Lemma stmt_Pandas_498_run w cols :
  globals w !! "df_titanic" = Some (PyFrame cols) ->
  wp stmt_Pandas_498 w (fun o _ _ =>
    match assoc_get "AgeClass" cols with
    | Some _ => o = Ok tt
    | None => o = Raise (KeyError "AgeClass")
    end).
Proof.
  intros Hdf. wp_run; use_eqns; wp_done.
Qed.

(** C4, as the code has it. Steps do pass state to later steps, and
    not only through local variables: the file that the download cell
    stores on disk is what the next cell reads (without the download the
    read fails); the table bound to [df_titanic] is changed in place by
    line 497 and read by line 498 (which fails without it); and the
    pandas option [display.max_rows] and the osmnx setting [use_cache]
    are global settings that lines 23 and 327 assign. *)
Theorem steps_pass_state_to_later_steps :
  (forall w body df,
     disk w !! "titanic.csv" = None -> web w !! url_titanic = Some body ->
     library w "pd.read_csv" [PyStr body] = Ok df ->
     outcome (cell_Pandas_36 w) = Raise (FileNotFoundError "titanic.csv") /\
     outcome (cell_Pandas_36 (final (cell_Pandas_30 w))) = Ok tt /\
     globals (final (cell_Pandas_36 (final (cell_Pandas_30 w)))) !! "df_titanic_raw"
     = Some df) /\
  (forall w cols age classes,
     globals w !! "df_titanic" = Some (PyFrame cols) ->
     assoc_get "Age" cols = Some age ->
     assoc_get "AgeClass" cols = None ->
     library w "pd.cut" [age; bins_0_90_10] = Ok classes ->
     outcome (stmt_Pandas_498 w) = Raise (KeyError "AgeClass") /\
     outcome (stmt_Pandas_498 (final (stmt_Pandas_497 w))) = Ok tt /\
     globals (final (stmt_Pandas_497 w)) !! "df_titanic"
     = Some (PyFrame (assoc_set "AgeClass" classes cols))) /\
  (forall w, options (final (cell_Pandas_23 w)) !! "display.max_rows" = Some (PyInt 8)) /\
  (forall w, ox_use_cache (final (cell_TempsMemoire_327 w)) = true).
Proof.
  split; [| split; [| split]]; [| | | reflexivity].
  - intros w body df Hd Hw Hlib.
    destruct (cell_Pandas_30_fetched w body Hd Hw) as (_ & _ & Hdisk & Hl).
    split; [apply (cell_Pandas_36_missing w Hd) |].
    pose proof (cell_Pandas_36_present (final (cell_Pandas_30 w)) body) as H.
    unfold wp in H. rewrite Hl, Hlib in H. apply H.
    rewrite Hdisk. apply lookup_insert_eq.
  - intros w cols age classes Hdf Hage Hnone Hcut.
    destruct (stmt_Pandas_497_run w cols age classes Hdf Hage Hcut) as [_ Hdf'].
    pose proof (stmt_Pandas_498_run w cols Hdf) as H1.
    pose proof (stmt_Pandas_498_run _ _ Hdf') as H2.
    unfold wp in H1, H2. rewrite Hnone in H1. rewrite assoc_get_set_eq in H2.
    auto.
  - intros w. apply lookup_insert_eq.
Qed.

Lemma steps_pass_state_to_later_steps_witness :
  outcome (cell_Pandas_36 demo_world) = Raise (FileNotFoundError "titanic.csv") /\
  outcome (cell_Pandas_36 (final (cell_Pandas_30 demo_world))) = Ok tt /\
  globals (final (cell_Pandas_36 (final (cell_Pandas_30 demo_world)))) !! "df_titanic_raw"
  = Some (PyFrame [("Age", PySeries "float64" [])]).
Proof.
  apply (proj1 steps_pass_state_to_later_steps demo_world
           "PassengerId,Survived,Pclass"); reflexivity.
Defined.

(** C4 as stated fails: what the read cell does depends on the download
    cell having run before it. *)
Lemma read_depends_on_download : ~ independent cell_Pandas_30 cell_Pandas_36.
Proof.
  intros H. specialize (H demo_world). vm_compute in H. discriminate.
Qed.

(** ** Exceptions *)

Lemma bind_raise {A B} (c : M A) (k : A -> M B) w e :
  outcome (c w) = Raise e ->
  (c ≫= k) w = Run (Raise e) (final (c w)) (emitted (c w)).
Proof.
  unfold mbind, M_bind, bind. destruct (c w) as [[a | e'] w1 l1]; cbn.
  - discriminate.
  - intros [= ->]. reflexivity.
Qed.

Lemma bind_ok {A B} (c : M A) (k : A -> M B) w a :
  outcome (c w) = Ok a ->
  (c ≫= k) w = Run (outcome (k a (final (c w)))) (final (k a (final (c w))))
                   (emitted (c w) ++ emitted (k a (final (c w)))).
Proof.
  unfold mbind, M_bind, bind. destruct (c w) as [[a' | e'] w1 l1]; cbn.
  - intros [= ->]. destruct (k a w1); reflexivity.
  - discriminate.
Qed.

Lemma run_cells_first_failure (pre post : list (M unit)) (c : M unit) e :
  forall w,
    outcome (run_cells pre w) = Ok tt ->
    outcome (c (final (run_cells pre w))) = Raise e ->
    outcome (run_cells (pre ++ c :: post) w) = Raise e /\
    final (run_cells (pre ++ c :: post) w) = final (c (final (run_cells pre w))) /\
    emitted (run_cells (pre ++ c :: post) w)
    = emitted (run_cells pre w) ++ emitted (c (final (run_cells pre w))).
Proof.
  induction pre as [| a pre IH]; intros w Hpre Hc; cbn [app run_cells] in *.
  - cbn in Hc |- *. rewrite (bind_raise _ _ _ _ Hc). auto.
  - destruct (outcome (a w)) as [[] | e'] eqn:Ha.
    + repeat rewrite (bind_ok _ _ _ _ Ha) in Hpre.
      repeat rewrite (bind_ok _ _ _ _ Ha) in Hc.
      repeat rewrite (bind_ok _ _ _ _ Ha).
      cbn [outcome final emitted] in Hpre, Hc |- *.
      destruct (IH _ Hpre Hc) as (H1 & H2 & H3).
      rewrite H1, H2, H3, app_assoc. auto.
    + rewrite (bind_raise _ _ _ _ Ha) in Hpre. discriminate.
Qed.

Lemma cell_TempsMemoire_256_missing w :
  disk w !! "force.json" = None ->
  wp cell_TempsMemoire_256 w (fun o _ _ => o = Raise (FileNotFoundError "force.json")).
Proof. intros Hd. wp_run; wp_done. Qed.

Lemma cell_TempsMemoire_256_present w text :
  disk w !! "force.json" = Some text ->
  wp cell_TempsMemoire_256 w (fun o w' l =>
    l = log_cell_TempsMemoire_256 /\
    match library w "json.load" [PyStr text] with
    | Ok js => o = Ok tt /\ globals w' !! "js_graph" = Some js
    | Raise e => o = Raise e
    end).
Proof. intros Hd. wp_run; use_eqns; wp_done. Qed.



(** ** Order and repetition of statements *)

Lemma stmts_of_prefix l L : l `prefix_of` L -> stmts_of l `prefix_of` stmts_of L.
Proof. intros [k ->]. rewrite stmts_of_app. eexists; reflexivity. Qed.

Lemma ops_of_prefix l L : l `prefix_of` L -> ops_of l `prefix_of` ops_of L.
Proof. intros [k ->]. rewrite ops_of_app. eexists; reflexivity. Qed.

Lemma prefix_of_nil {A} (l : list A) : l `prefix_of` [] -> l = [].
Proof. intros [k Hk]. destruct l; [reflexivity | discriminate]. Qed.

Lemma prefix_of_In {A} (l L : list A) x : l `prefix_of` L -> In x l -> In x L.
Proof. intros [k ->] H. apply in_or_app. auto. Qed.

Lemma run_cells_cons (c : M unit) cs w :
  emitted (run_cells (c :: cs) w)
  = emitted (c w) ++
    match outcome (c w) with
    | Ok _ => emitted (run_cells cs (final (c w)))
    | Raise _ => []
    end.
Proof.
  cbn [run_cells]. destruct (outcome (c w)) as [[] | e] eqn:Hc.
  - rewrite (bind_ok _ _ _ _ Hc). reflexivity.
  - rewrite (bind_raise _ _ _ _ Hc). cbn. rewrite app_nil_r. reflexivity.
Qed.




(** ** The script's own computation *)

Lemma library_calls_only_prefix l L :
  l `prefix_of` L -> library_calls_only L -> library_calls_only l.
Proof.
  intros Hp [Hops Hnd]. split.
  - apply ops_of_prefix in Hp. rewrite Hops in Hp. apply prefix_of_nil, Hp.
  - apply stmts_of_prefix in Hp. destruct Hp as [k Hk]. rewrite Hk in Hnd.
    apply NoDup_ListNoDup in Hnd. apply NoDup_ListNoDup.
    apply (List.NoDup_app_remove_r _ _ Hnd).
Qed.

Lemma runs_along_library_calls_only {A} L (c : M A) w :
  runs_along L c -> library_calls_only L -> library_calls_only (emitted (c w)).
Proof.
  intros H HL. destruct (H w) as (Hp & _). apply (library_calls_only_prefix _ _ Hp HL).
Qed.




(** ** Input and output *)

Lemma Forall_prefix_of {A} (P : A -> Prop) l L :
  l `prefix_of` L -> List.Forall P L -> List.Forall P l.
Proof. intros [k ->] H. apply List.Forall_app in H. apply H. Qed.

Lemma runs_along_Forall {A} (P : event -> Prop) L (c : M A) :
  runs_along L c -> List.Forall P L -> forall w, List.Forall P (emitted (c w)).
Proof.
  intros H HL w. destruct (H w) as (Hp & _). apply (Forall_prefix_of _ _ _ Hp HL).
Qed.

Lemma cell_TempsMemoire_497_log w :
  emitted (cell_TempsMemoire_497 w) = log_cell_TempsMemoire_497.
Proof.
  unfold cell_TempsMemoire_497, stmt.
  unfold mbind at 1 2. unfold M_bind, bind, emit.
  rewrite blobl_func_nonneg by lia. reflexivity.
Qed.

Lemma run_cells_Forall (P : event -> Prop) (cs : list (M unit)) :
  List.Forall (fun c : M unit => forall w, List.Forall P (emitted (c w))) cs ->
  forall w, List.Forall P (emitted (run_cells cs w)).
Proof.
  induction 1 as [| c cs Hc _ IH]; intros w.
  - constructor.
  - rewrite run_cells_cons. apply List.Forall_app. split; [apply Hc |].
    destruct (outcome (c w)); [apply IH | constructor].
Qed.

Lemma io_used_forallb l :
  List.Forall event_io_used l -> forallb used_io (io_of l) = true.
Proof.
  induction 1 as [| e l He _ IH]; [reflexivity |].
  destruct e; cbn in *; rewrite ?He; assumption.
Qed.

Ltac io_by_log H :=
  apply List.Forall_cons;
  [eapply runs_along_Forall; [exact H | closed_Forall] |].

Ltac io_by_prefix H :=
  apply List.Forall_cons;
  [intros w; eapply Forall_prefix_of; [exact (H w) | closed_Forall] |].

Lemma Pandas_cells_io w :
  List.Forall event_io_used (emitted (run_cells Pandas_cells w)).
Proof.
  revert w. apply run_cells_Forall. unfold Pandas_cells.
  io_by_log cell_Pandas_23_log.
  io_by_prefix cell_Pandas_30_within.
  io_by_log cell_Pandas_36_log.
  io_by_log cell_Pandas_497_log.
  io_by_log cell_Pandas_562_log.
  io_by_log cell_Pandas_567_log.
  io_by_log cell_Pandas_573_log.
  io_by_log cell_Pandas_584_log.
  io_by_prefix cell_Pandas_785_within.
  io_by_log cell_Pandas_1053_log.
  apply List.Forall_nil.
Qed.

Lemma TempsMemoire_cells_io w :
  List.Forall event_io_used (emitted (run_cells TempsMemoire_cells w)).
Proof.
  revert w. apply run_cells_Forall. unfold TempsMemoire_cells.
  io_by_log cell_TempsMemoire_256_log.
  io_by_log cell_TempsMemoire_327_log.
  apply List.Forall_cons; [intros w; apply (cell_TempsMemoire_333_events w) |].
  apply List.Forall_cons; [intros w; apply (cell_TempsMemoire_352_events w) |].
  io_by_log cell_TempsMemoire_423_log.
  io_by_log cell_TempsMemoire_468_log.
  apply List.Forall_cons;
    [intros w; rewrite cell_TempsMemoire_497_log; closed_Forall |].
  apply List.Forall_nil.
Qed.

Lemma cell_TempsMemoire_352_io_uncached w :
  ox_use_cache w = false ->
  wp cell_TempsMemoire_352 w (fun o _ l =>
    is_ok o ->
    io_of l = [WebQuery "OpenStreetMap" place_origin;
               WebQuery "OpenStreetMap" place_destination; Stdout; Stdout]).
Proof.
  intros Hc. wp_run; cbn [is_ok]; intros Hok; try contradiction. reflexivity.
Qed.




(** ** The graph cells *)


Lemma cell_TempsMemoire_352_route w :
  wp cell_TempsMemoire_352 w (fun o w' _ =>
    o = Ok tt ->
    exists g to td po pd a b r,
      globals w !! "G" = Some g /\
      library w "ox.utils.geocode" [PyStr to] = Ok po /\
      library w "ox.utils.geocode" [PyStr td] = Ok pd /\
      library w "ox.get_nearest_node" [g; po] = Ok a /\
      library w "ox.get_nearest_node" [g; pd] = Ok b /\
      library w "nx.shortest_path" [g; a; b] = Ok r /\
      globals w' !! "route" = Some r /\
      stdout w' = stdout w ++ [po; pd]).
Proof.
  wp_run; intros Hok; try discriminate.
  all: do 8 eexists; repeat apply conj;
    [ | | | | | | apply lookup_insert_eq
    | cbn [app]; rewrite <- app_assoc; reflexivity ];
    first [eassumption | reflexivity].
Qed.

Lemma cell_TempsMemoire_423_empty_graph w g e :
  globals w !! "G" = Some g ->
  library w "Graph.number_of_edges" [g] = Ok (PyInt e) ->
  library w "Graph.number_of_nodes" [g] = Ok (PyInt 0) ->
  wp cell_TempsMemoire_423 w (fun o w' l =>
    o = Raise ZeroDivisionError /\
    ops_of l = [OpMul; OpPow; OpTrueDiv] /\
    stdout w' = stdout w).
Proof.
  intros HG He Hn.
  assert (Hdiv : int_truediv (100 * e) (0 ^ 2) = Raise ZeroDivisionError)
    by reflexivity.
  wp_run; wp_done.
Qed.

Lemma cell_TempsMemoire_423_graph w g e n :
  globals w !! "G" = Some g ->
  library w "Graph.number_of_edges" [g] = Ok (PyInt e) ->
  library w "Graph.number_of_nodes" [g] = Ok (PyInt n) ->
  0 <= e < 2 ^ 63 -> n <> 0 ->
  wp cell_TempsMemoire_423 w (fun o w' l =>
    o = Ok tt /\
    ops_of l = [OpMul; OpPow; OpTrueDiv] /\
    stdout w'
    = stdout w ++ [py_format sparsity_template
                     [PyFloat (SFdiv prec emax (Z2SF (100 * e)) (Z2SF (n ^ 2)))]]).
Proof.
  intros HG He Hn Hrange Hnz.
  assert (Hdiv : int_truediv (100 * e) (n ^ 2)
                 = Ok (SFdiv prec emax (Z2SF (100 * e)) (Z2SF (n ^ 2)))).
  { apply int_truediv_small.
    - apply Z.pow_nonzero; lia.
    - change (2 ^ 63) with 9223372036854775808 in Hrange.
      change (2 ^ 80) with 1208925819614629174706176. lia. }
  wp_run; wp_done.
Qed.

(** C6, as the code has it. The cells that fetch the street graph and
    compute the route only call library routines: they evaluate no
    operator of their own, and the route stored is the one
    [nx.shortest_path] returns for the nodes [ox.get_nearest_node]
    returns for the two places geocoded from the responses [to] and
    [td] of the map service.  The sparsity cell in addition
    computes [100 * E / N ** 2] with the script's own operators on the
    edge and node counts the library reports (for a graph of fewer than
    [2 ^ 63] edges): the percentage is printed when [N] is not zero, and
    the division raises [ZeroDivisionError] when [N] is zero. *)
Theorem graph_cells_call_libraries_and_compute_sparsity :
  no_own_operator cell_TempsMemoire_333 /\
  no_own_operator cell_TempsMemoire_352 /\
  (forall w,
     outcome (cell_TempsMemoire_352 w) = Ok tt ->
     exists g to td po pd a b r,
       globals w !! "G" = Some g /\
       library w "ox.utils.geocode" [PyStr to] = Ok po /\
       library w "ox.utils.geocode" [PyStr td] = Ok pd /\
       library w "ox.get_nearest_node" [g; po] = Ok a /\
       library w "ox.get_nearest_node" [g; pd] = Ok b /\
       library w "nx.shortest_path" [g; a; b] = Ok r /\
       globals (final (cell_TempsMemoire_352 w)) !! "route" = Some r /\
       stdout (final (cell_TempsMemoire_352 w)) = stdout w ++ [po; pd]) /\
  (forall w g e n,
     globals w !! "G" = Some g ->
     library w "Graph.number_of_edges" [g] = Ok (PyInt e) ->
     library w "Graph.number_of_nodes" [g] = Ok (PyInt n) ->
     0 <= e < 2 ^ 63 ->
     ops_of (emitted (cell_TempsMemoire_423 w)) = [OpMul; OpPow; OpTrueDiv] /\
     (n = 0 -> outcome (cell_TempsMemoire_423 w) = Raise ZeroDivisionError) /\
     (n <> 0 ->
      outcome (cell_TempsMemoire_423 w) = Ok tt /\
      stdout (final (cell_TempsMemoire_423 w))
      = stdout w ++ [py_format sparsity_template
                       [PyFloat (SFdiv prec emax (Z2SF (100 * e)) (Z2SF (n ^ 2)))]])).
Proof.
  split; [| split; [| split]].
  - intros w. apply (cell_TempsMemoire_333_events w).
  - intros w. apply (cell_TempsMemoire_352_events w).
  - intros w Hok. apply (cell_TempsMemoire_352_route w Hok).
  - intros w g e n HG He Hn Hrange.
    destruct (Z.eq_dec n 0) as [-> | Hnz].
    + destruct (cell_TempsMemoire_423_empty_graph w g e HG He Hn) as (Ho & Hops & _).
      repeat split; auto; congruence.
    + destruct (cell_TempsMemoire_423_graph w g e n HG He Hn Hrange Hnz)
        as (Ho & Hops & Hout).
      repeat split; auto; congruence.
Qed.

Lemma graph_cells_call_libraries_and_compute_sparsity_witness :
  ops_of (emitted (cell_TempsMemoire_423 demo_world)) = [OpMul; OpPow; OpTrueDiv] /\
  (2 = 0 -> outcome (cell_TempsMemoire_423 demo_world) = Raise ZeroDivisionError) /\
  (2 <> 0 ->
   outcome (cell_TempsMemoire_423 demo_world) = Ok tt /\
   stdout (final (cell_TempsMemoire_423 demo_world))
   = stdout demo_world
     ++ [py_format sparsity_template
           [PyFloat (SFdiv prec emax (Z2SF (100 * 3)) (Z2SF (2 ^ 2)))]]).
Proof.
  apply (proj2 (proj2 (proj2 graph_cells_call_libraries_and_compute_sparsity))
           demo_world (PyLib "MultiDiGraph" []) 3 2);
    [reflexivity | reflexivity | reflexivity | lia].
Defined.

(** C6 as stated fails: the sparsity cell evaluates operators of the
    script itself. *)
Lemma sparsity_cell_computes_by_itself : ~ no_own_operator cell_TempsMemoire_423.
Proof.
  intros H. specialize (H demo_world). vm_compute in H. discriminate.
Qed.

(** * Further properties *)

(** ** Rows of the hour column *)

Lemma int8_values_all (P : Z -> bool) :
  forallb P int8_values = true -> forall r, -128 <= r <= 127 -> P r = true.
Proof.
  intros H r Hr. rewrite forallb_forall in H. apply H.
  unfold int8_values. apply in_map_iff. exists (Z.to_nat (r + 128)).
  split; [lia |]. apply in_seq. lia.
Qed.

Lemma directive_H_int8 r :
  -128 <= r <= 127 ->
  directive_H (str_of_int r) = if (0 <=? r) && (r <=? 23) then Some r else None.
Proof.
  intros Hr.
  pose proof (int8_values_all
    (fun r => option_Z_eqb (directive_H (str_of_int r))
                (if (0 <=? r) && (r <=? 23) then Some r else None))) as H.
  specialize (H ltac:(vm_compute; reflexivity) r Hr). cbv beta in H.
  destruct (directive_H (str_of_int r)) as [a |],
    ((0 <=? r) && (r <=? 23)); cbn in H; try discriminate; try reflexivity.
  apply Z.eqb_eq in H. congruence.
Qed.

Lemma int_of_str_of_int8 r :
  -128 <= r <= 127 -> int_of_str (str_of_int r) = Some r.
Proof.
  intros Hr.
  pose proof (int8_values_all
    (fun r => option_Z_eqb (int_of_str (str_of_int r)) (Some r))) as H.
  specialize (H ltac:(vm_compute; reflexivity) r Hr). cbv beta in H.
  destruct (int_of_str (str_of_int r)) as [a |]; cbn in H; [| discriminate].
  apply Z.eqb_eq in H. congruence.
Qed.

Lemma traverse_bad_row xs :
  Forall text_row xs -> Exists bad_row xs -> traverse to_int8 xs = Raise ValueError.
Proof.
  induction 1 as [| x xs (s & -> & Hs) _ IH]; intros Hbad.
  - inversion Hbad.
  - cbn [traverse]. unfold to_int8 at 1.
    destruct (int_of_str s) as [h |] eqn:E; [| reflexivity].
    destruct (Z.leb_spec (- 2 ^ 63) h); [| lia].
    destruct (Z.ltb_spec h (2 ^ 63)); [| lia].
    cbn [andb]. rewrite IH; [reflexivity |].
    inversion Hbad as [? ? (s' & Heq & Hs') | ]; subst; [| assumption].
    injection Heq as <-. congruence.
Qed.

Lemma cell_Pandas_562_raises w cols dt xs e :
  globals w !! "polution_df" = Some (PyFrame cols) ->
  assoc_get "heure" cols = Some (PySeries dt xs) ->
  traverse to_int8 xs = Raise e ->
  wp cell_Pandas_562 w (fun o w' l =>
    o = Raise e /\ w' = w /\ stmts_of l = [562%nat]).
Proof.
  intros Hdf Hcol Hbad. wp_run; wp_done.
Qed.



Lemma to_int8_text s h :
  int_of_str s = Some h -> -128 <= h <= 127 -> to_int8 (PyStr s) = Ok (PyInt h).
Proof.
  intros Hs Hh. unfold to_int8. rewrite Hs.
  destruct (Z.leb_spec (- 2 ^ 63) h); [| lia].
  destruct (Z.ltb_spec h (2 ^ 63)); [| lia].
  cbn [andb]. rewrite wrap_int8_small by lia. reflexivity.
Qed.

Lemma wrap_int8_range n : -128 <= wrap_int8 n <= 127.
Proof. unfold wrap_int8. pose proof (Z.mod_pos_bound (n + 128) 256). lia. Qed.

Lemma hour_shift_text s h :
  int_of_str s = Some h -> -128 <= h <= 127 ->
  hour_shift (PyStr s) = Ok (PyStr (str_of_int (wrap_int8 (h - 1)))).
Proof.
  intros Hs Hh. unfold hour_shift. rewrite (to_int8_text s h Hs Hh). reflexivity.
Qed.

Lemma to_int8_int v y : to_int8 v = Ok y -> exists n, y = PyInt n.
Proof.
  unfold to_int8. intros H.
  destruct v as [| | n | | s | | | |]; try discriminate.
  - destruct ((- 2 ^ 63 <=? n) && (n <? 2 ^ 63)); [| discriminate].
    injection H as <-. eauto.
  - destruct (int_of_str s) as [n |]; [| discriminate].
    destruct ((- 2 ^ 63 <=? n) && (n <? 2 ^ 63)); [| discriminate].
    injection H as <-. eauto.
Qed.

Lemma traverse_hour_shift xs :
  traverse hour_shift xs
  = match traverse to_int8 xs with
    | Raise e => Raise e
    | Ok ys1 =>
        match traverse (int8_sub 1) ys1 with
        | Raise e => Raise e
        | Ok ys2 => traverse elem_to_str ys2
        end
    end.
Proof.
  induction xs as [| x xs IH]; [reflexivity |].
  cbn [traverse]. rewrite IH. unfold hour_shift.
  destruct (to_int8 x) as [a |] eqn:Ea; [| reflexivity].
  destruct (to_int8_int _ _ Ea) as [n ->]. cbn [int8_sub elem_to_str].
  destruct (traverse to_int8 xs) as [ys1 |]; [| reflexivity].
  cbn [traverse int8_sub].
  destruct (traverse (int8_sub 1) ys1) as [ys2 |]; [| reflexivity].
  cbn [traverse elem_to_str].
  destruct (traverse elem_to_str ys2); reflexivity.
Qed.

Lemma heure_cells_rows w cols dt xs :
  globals w !! "polution_df" = Some (PyFrame cols) ->
  assoc_get "heure" cols = Some (PySeries dt xs) ->
  match traverse hour_shift xs with
  | Raise e => outcome (heure_cells w) = Raise e
  | Ok ys =>
      outcome (heure_cells w) = Ok tt /\
      globals (final (heure_cells w)) !! "polution_df"
      = Some (PyFrame (assoc_set "heure" (PySeries "object" ys) cols))
  end.
Proof.
  intros Hdf Hcol. pose proof (heure_cells_run w cols dt xs Hdf Hcol) as Hrun.
  unfold wp in Hrun. rewrite traverse_hour_shift.
  destruct (traverse to_int8 xs) as [ys1 |]; [| exact Hrun].
  destruct (traverse (int8_sub 1) ys1) as [ys2 |]; [| exact Hrun].
  exact Hrun.
Qed.

(** X2. Whenever the three conversion cells run through, a row whose
    text parses as an integer [h] of the [int8] range ends as the text of
    [h - 1] (wrapped to 8 bits), and the directive [%H] accepts that
    text exactly when [h] is between 1 and 24: an hour written 0, 25 or
    -3 in the file ends as a text the date format of line 586 rejects. *)
Theorem converted_hour_accepted_iff (w : world) cols dt xs :
  globals w !! "polution_df" = Some (PyFrame cols) ->
  assoc_get "heure" cols = Some (PySeries dt xs) ->
  outcome (heure_cells w) = Ok tt ->
  exists ys,
    globals (final (heure_cells w)) !! "polution_df"
    = Some (PyFrame (assoc_set "heure" (PySeries "object" ys) cols)) /\
    forall (k : nat) s h,
      xs !! k = Some (PyStr s) -> int_of_str s = Some h -> -128 <= h <= 127 ->
      exists t,
        ys !! k = Some (PyStr t) /\
        t = str_of_int (wrap_int8 (h - 1)) /\
        directive_H t = if (1 <=? h) && (h <=? 24) then Some (h - 1) else None.
Proof.
  intros Hdf Hcol Hok. pose proof (heure_cells_rows w cols dt xs Hdf Hcol) as Hrun.
  destruct (traverse hour_shift xs) as [ys |] eqn:E; [| congruence].
  exists ys. split; [apply Hrun |]. intros k s h Hk Hs Hh.
  destruct (traverse_lookup _ _ _ _ _ E Hk) as (y & Hy & Hky).
  rewrite (hour_shift_text s h Hs Hh) in Hy. injection Hy as <-.
  eexists. split; [exact Hky |]. split; [reflexivity |].
  rewrite directive_H_int8 by apply wrap_int8_range.
  unfold wrap_int8.
  destruct (Z.eq_dec h (-128)) as [-> | Hne]; [reflexivity |].
  rewrite Z.mod_small by lia.
  replace (h - 1 + 128 - 128) with (h - 1) by lia.
  destruct (Z.leb_spec 0 (h - 1)), (Z.leb_spec (h - 1) 23),
    (Z.leb_spec 1 h), (Z.leb_spec h 24); cbn [andb]; try reflexivity; lia.
Qed.

Lemma converted_hour_accepted_iff_witness :
  exists ys,
    globals (final (heure_cells demo_world_midnight)) !! "polution_df"
    = Some (PyFrame (assoc_set "heure" (PySeries "object" ys)
              [("heure", PySeries "object" [PyStr "0"; PyStr "24"])])) /\
    forall (k : nat) s h,
      [PyStr "0"; PyStr "24"] !! k = Some (PyStr s) ->
      int_of_str s = Some h -> -128 <= h <= 127 ->
      exists t,
        ys !! k = Some (PyStr t) /\
        t = str_of_int (wrap_int8 (h - 1)) /\
        directive_H t = if (1 <=? h) && (h <=? 24) then Some (h - 1) else None.
Proof.
  apply (converted_hour_accepted_iff demo_world_midnight
           [("heure", PySeries "object" [PyStr "0"; PyStr "24"])]
           "object" [PyStr "0"; PyStr "24"]); reflexivity.
Defined.

Lemma traverse_Forall2 {A B} (f : A -> result B) (P : A -> Prop) (R : A -> B -> Prop) xs :
  (forall x, P x -> exists y, f x = Ok y /\ R x y) ->
  Forall P xs -> exists ys, traverse f xs = Ok ys /\ Forall2 R xs ys.
Proof.
  intros Hf. induction 1 as [| a xs Ha _ (ys & IH & HR)]; cbn.
  - eauto.
  - destruct (Hf a Ha) as (b & -> & Hb). rewrite IH. eauto.
Qed.

Lemma Forall2_right {A B} (R : A -> B -> Prop) (Q : B -> Prop) xs ys :
  Forall2 R xs ys -> (forall x y, R x y -> Q y) -> Forall Q ys.
Proof. induction 1; intros HQ; constructor; eauto. Qed.

(** X3. The conversion cells are not idempotent: run twice on a column
    of hours from 1 to 24, they run through and leave each row as the
    text of [h - 2]; the hour 1 then reads [-1], which [%H] rejects. *)
Theorem heure_conversion_twice_shifts_by_two (w : world) cols dt xs :
  globals w !! "polution_df" = Some (PyFrame cols) ->
  assoc_get "heure" cols = Some (PySeries dt xs) ->
  Forall hour_row xs ->
  outcome (run_cells [heure_cells; heure_cells] w) = Ok tt /\
  exists ys,
    globals (final (run_cells [heure_cells; heure_cells] w)) !! "polution_df"
    = Some (PyFrame (assoc_set "heure" (PySeries "object" ys) cols)) /\
    forall (k : nat) s h,
      xs !! k = Some (PyStr s) -> int_of_str s = Some h -> 1 <= h <= 24 ->
      ys !! k = Some (PyStr (str_of_int (h - 2))) /\
      (h = 1 -> directive_H (str_of_int (h - 2)) = None).
Proof.
  intros Hdf Hcol Hrows.
  destruct (traverse_Forall2 hour_shift hour_row
              (fun x y => exists s h, x = PyStr s /\ int_of_str s = Some h /\
                                      1 <= h <= 24 /\ y = PyStr (str_of_int (h - 1)))
              xs) as (ys1 & E1 & R1); [| assumption |].
  { intros x (s & h & -> & Hs & Hh). eexists. split.
    - apply (hour_shift_text s h Hs). lia.
    - rewrite wrap_int8_small by lia. eauto 8. }
  destruct (traverse_Forall2 hour_shift
              (fun y => exists n, y = PyStr (str_of_int n) /\ 0 <= n <= 23)
              (fun y z => exists n, y = PyStr (str_of_int n) /\ 0 <= n <= 23 /\
                                    z = PyStr (str_of_int (n - 1)))
              ys1) as (ys2 & E2 & R2).
  { intros y (n & -> & Hn). eexists. split.
    - apply (hour_shift_text _ n); [apply int_of_str_of_int8 |]; lia.
    - rewrite wrap_int8_small by lia. eauto 8. }
  { apply (Forall2_right _ _ _ _ R1).
    intros x y (s & h & _ & _ & Hh & ->). exists (h - 1). split; [reflexivity | lia]. }
  pose proof (heure_cells_rows w cols dt xs Hdf Hcol) as Hrun1.
  rewrite E1 in Hrun1. destruct Hrun1 as [Hok1 Hg1].
  pose proof (heure_cells_rows (final (heure_cells w)) _ "object" ys1 Hg1
                (assoc_get_set_eq _ _ _)) as Hrun2.
  rewrite E2, assoc_set_set in Hrun2. destruct Hrun2 as [Hok2 Hg2].
  assert (Hrun : run_cells [heure_cells; heure_cells] w
                 = Run (outcome (heure_cells (final (heure_cells w))))
                       (final (heure_cells (final (heure_cells w))))
                       (emitted (heure_cells w)
                          ++ emitted (heure_cells (final (heure_cells w))) ++ [])).
  { cbn [run_cells].
    rewrite (bind_ok _ _ _ _ Hok1).
    destruct (heure_cells (final (heure_cells w))) as [o2 w2 l2] eqn:E.
    cbn [outcome] in Hok2. subst o2.
    change ((heure_cells ≫= (fun _ : unit => ret tt)) (final (heure_cells w)))
      with (bind heure_cells (fun _ : unit => ret tt) (final (heure_cells w))).
    unfold bind. rewrite E. reflexivity. }
  rewrite Hrun. cbn [outcome final]. split; [assumption |].
  exists ys2. split; [assumption |].
  intros k s h Hk Hs Hh.
  destruct (Forall2_lookup_l _ _ _ _ _ R1 Hk) as (y & Hky & s' & h' & Hx & Hs' & _ & ->).
  injection Hx as <-. assert (h' = h) by congruence. subst h'.
  destruct (Forall2_lookup_l _ _ _ _ _ R2 Hky) as (z & Hkz & n & Hy & Hn & ->).
  assert (n = h - 1).
  { injection Hy as Hy. apply (f_equal int_of_str) in Hy.
    rewrite !int_of_str_of_int8 in Hy by lia. congruence. }
  subst n. replace (h - 1 - 1) with (h - 2) in Hkz by lia.
  split; [assumption |]. intros ->. reflexivity.
Qed.

Lemma heure_conversion_twice_shifts_by_two_witness :
  outcome (run_cells [heure_cells; heure_cells] demo_world) = Ok tt /\
  exists ys,
    globals (final (run_cells [heure_cells; heure_cells] demo_world)) !! "polution_df"
    = Some (PyFrame (assoc_set "heure" (PySeries "object" ys)
              [("date", PySeries "object" [PyStr "21/04/2008"; PyStr "21/04/2008"]);
               ("heure", PySeries "object" [PyStr "1"; PyStr "24"])])) /\
    forall (k : nat) s h,
      [PyStr "1"; PyStr "24"] !! k = Some (PyStr s) ->
      int_of_str s = Some h -> 1 <= h <= 24 ->
      ys !! k = Some (PyStr (str_of_int (h - 2))) /\
      (h = 1 -> directive_H (str_of_int (h - 2)) = None).
Proof.
  apply (heure_conversion_twice_shifts_by_two demo_world
           [("date", PySeries "object" [PyStr "21/04/2008"; PyStr "21/04/2008"]);
            ("heure", PySeries "object" [PyStr "1"; PyStr "24"])]
           "object" [PyStr "1"; PyStr "24"]).
  - reflexivity.
  - reflexivity.
  - repeat apply List.Forall_cons; try apply List.Forall_nil.
    + exists "1", 1. repeat apply conj; try reflexivity; lia.
    + exists "24", 24. repeat apply conj; try reflexivity; lia.
Defined.

Lemma assoc_set_same k v cols : assoc_get k cols = Some v -> assoc_set k v cols = cols.
Proof.
  induction cols as [| [k' v'] cols IH]; cbn; [discriminate |].
  destruct (String.eqb k k') eqn:E.
  - intros [= ->]. apply String.eqb_eq in E. subst. reflexivity.
  - intros H. rewrite IH by assumption. reflexivity.
Qed.

Lemma text_and_back_run w cols xs :
  globals w !! "polution_df" = Some (PyFrame cols) ->
  assoc_get "heure" cols = Some (PySeries "int8" xs) ->
  wp (run_cells [cell_Pandas_573; cell_Pandas_562]) w (fun o w' _ =>
    match traverse elem_to_str xs with
    | Raise e => o = Raise e
    | Ok ys1 =>
        match traverse to_int8 ys1 with
        | Raise e => o = Raise e
        | Ok ys2 =>
            o = Ok tt /\
            globals w' !! "polution_df"
            = Some (PyFrame (assoc_set "heure" (PySeries "int8" ys2) cols))
        end
    end).
Proof.
  intros Hdf Hcol. wp_run; use_eqns; try reflexivity.
  split; [reflexivity |].
  rewrite lookup_insert_eq, !assoc_set_set. reflexivity.
Qed.

Lemma int8_text_back xs :
  Forall int8_row xs ->
  exists ys, traverse elem_to_str xs = Ok ys /\ traverse to_int8 ys = Ok xs.
Proof.
  induction 1 as [| x xs (n & -> & Hn) _ (ys & E1 & E2)]; cbn [traverse].
  - eauto.
  - cbn [elem_to_str]. rewrite E1. eexists. split; [reflexivity |].
    cbn [traverse].
    rewrite (to_int8_text _ n (int_of_str_of_int8 n Hn) Hn), E2. reflexivity.
Qed.

(** X4. On a column [heure] already of type [int8], the cast to text
    of line 573 followed by the cast of line 562 gives back the same
    table: the text of an [int8] value parses to that value. *)
Theorem int8_hours_survive_text_and_back (w : world) cols xs :
  globals w !! "polution_df" = Some (PyFrame cols) ->
  assoc_get "heure" cols = Some (PySeries "int8" xs) ->
  Forall int8_row xs ->
  outcome (run_cells [cell_Pandas_573; cell_Pandas_562] w) = Ok tt /\
  globals (final (run_cells [cell_Pandas_573; cell_Pandas_562] w)) !! "polution_df"
  = Some (PyFrame cols).
Proof.
  intros Hdf Hcol Hrows.
  pose proof (text_and_back_run w cols xs Hdf Hcol) as Hrun. unfold wp in Hrun.
  destruct (int8_text_back xs Hrows) as (ys & E1 & E2).
  rewrite E1, E2 in Hrun. rewrite (assoc_set_same _ _ _ Hcol) in Hrun. exact Hrun.
Qed.

Lemma int8_hours_survive_text_and_back_witness :
  outcome (run_cells [cell_Pandas_573; cell_Pandas_562] demo_world_int8) = Ok tt /\
  globals (final (run_cells [cell_Pandas_573; cell_Pandas_562] demo_world_int8))
    !! "polution_df"
  = Some (PyFrame [("heure", PySeries "int8" [PyInt 0; PyInt (-128); PyInt 127])]).
Proof.
  apply (int8_hours_survive_text_and_back demo_world_int8
           [("heure", PySeries "int8" [PyInt 0; PyInt (-128); PyInt 127])]
           [PyInt 0; PyInt (-128); PyInt 127]).
  - reflexivity.
  - reflexivity.
  - repeat apply List.Forall_cons; try apply List.Forall_nil;
      eexists; (split; [reflexivity | lia]).
Defined.

(** ** Downloads *)

Lemma cell_Pandas_30_stored w :
  wp cell_Pandas_30 w (fun o w' _ =>
    o = Ok tt -> exists text, disk w' !! "titanic.csv" = Some text).
Proof.
  wp_run; try (intros; discriminate); intros _; eexists;
    first [eassumption | apply lookup_insert_eq].
Qed.



Lemma cell_Pandas_30_offline w :
  web w !! url_titanic = None -> disk w !! "titanic.csv" = None ->
  wp cell_Pandas_30 w (fun o w' l =>
    o = Raise (LibError "RuntimeError") /\ disk w' = disk w /\
    io_of l = [HttpGet url_titanic]).
Proof.
  unfold url_titanic. intros Hw Hd. wp_run; wp_done.
Qed.

Lemma cell_Pandas_785_offline w :
  web w !! url_bikes = None ->
  wp cell_Pandas_785 w (fun o w' l =>
    o = Raise (LibError "RuntimeError") /\ disk w' = disk w /\
    io_of l = [HttpGet url_bikes]).
Proof.
  unfold url_bikes. intros Hw. wp_run; wp_done.
Qed.



Lemma cell_Pandas_30_frame p w :
  p <> "titanic.csv" ->
  wp cell_Pandas_30 w (fun _ w' _ =>
    disk w' !! p = disk w !! p /\ web w' = web w /\ library w' = library w).
Proof.
  intros Hp.
  wp_run; (split; [| split; reflexivity]); try reflexivity;
    apply lookup_insert_ne; congruence.
Qed.

Lemma cell_Pandas_785_frame p w :
  p <> "bicycle_db.csv" ->
  wp cell_Pandas_785 w (fun _ w' _ =>
    disk w' !! p = disk w !! p /\ web w' = web w /\ library w' = library w).
Proof.
  intros Hp.
  wp_run; (split; [| split; reflexivity]); try reflexivity;
    apply lookup_insert_ne; congruence.
Qed.



(** ** The file that is never fetched *)

Lemma run_cells_app_outcome (pre post : list (M unit)) : forall w,
  outcome (run_cells (pre ++ post) w)
  = match outcome (run_cells pre w) with
    | Ok _ => outcome (run_cells post (final (run_cells pre w)))
    | Raise e => Raise e
    end.
Proof.
  induction pre as [| c pre IH]; intros w; [reflexivity |].
  cbn [run_cells app].
  change (outcome (bind c (fun _ => run_cells (pre ++ post)) w)
          = match outcome (bind c (fun _ => run_cells pre) w) with
            | Ok _ => outcome (run_cells post (final (bind c (fun _ => run_cells pre) w)))
            | Raise e => Raise e
            end).
  unfold bind. destruct (c w) as [[[] | e] w1 l1]; [| reflexivity].
  specialize (IH w1).
  destruct (run_cells (pre ++ post) w1) as [o2 w2 l2].
  destruct (run_cells pre w1) as [o3 w3 l3]. exact IH.
Qed.

Lemma run_cells_preserves (P : world -> Prop) (cs : list (M unit)) :
  List.Forall (fun c : M unit => forall w, P w -> P (final (c w))) cs ->
  forall w, P w -> P (final (run_cells cs w)).
Proof.
  induction 1 as [| c cs Hc _ IH]; intros w Hw; [exact Hw |].
  cbn [run_cells].
  change (P (final (bind c (fun _ => run_cells cs) w))).
  unfold bind. specialize (Hc w Hw).
  destruct (c w) as [[[] | e] w1 l1]; [| exact Hc].
  specialize (IH w1 Hc). destruct (run_cells cs w1) as [o2 w2 l2]. exact IH.
Qed.

Lemma cell_Pandas_420_missing w :
  disk w !! "babies23.data" = None ->
  wp cell_Pandas_420 w (fun o w' l =>
    o = Raise (FileNotFoundError "babies23.data") /\
    io_of l = [FileRead "babies23.data"] /\ globals w' = globals w).
Proof.
  intros Hd. wp_run; wp_done.
Qed.

(** X8. No cell fetches [babies23.data] (its address stands in a
    comment only): when the file is not in the working directory at the
    start, it is still absent after the cells of lines 23, 30-32 and 36,
    so line 420 raises [FileNotFoundError] and the run of these cells
    never succeeds. *)
Theorem babies_file_is_never_fetched (w : world) :
  disk w !! "babies23.data" = None ->
  disk (final (run_cells [cell_Pandas_23; cell_Pandas_30; cell_Pandas_36] w))
    !! "babies23.data" = None /\
  outcome (cell_Pandas_420
             (final (run_cells [cell_Pandas_23; cell_Pandas_30; cell_Pandas_36] w)))
  = Raise (FileNotFoundError "babies23.data") /\
  ~ is_ok (outcome (run_cells [cell_Pandas_23; cell_Pandas_30; cell_Pandas_36;
                               cell_Pandas_420] w)).
Proof.
  intros Hd.
  assert (Hkeep : disk (final (run_cells [cell_Pandas_23; cell_Pandas_30; cell_Pandas_36] w))
                    !! "babies23.data" = None).
  { apply (run_cells_preserves (fun w => disk w !! "babies23.data" = None)); [| exact Hd].
    repeat apply List.Forall_cons; try apply List.Forall_nil; intros w0 H0.
    - rewrite (runs_along_transient _ _ cell_Pandas_23_log w0). exact H0.
    - destruct (cell_Pandas_30_frame "babies23.data" w0 ltac:(discriminate)) as [-> _].
      exact H0.
    - rewrite (runs_along_transient _ _ cell_Pandas_36_log w0). exact H0. }
  destruct (cell_Pandas_420_missing _ Hkeep) as (Ho & _).
  repeat apply conj; try assumption.
  change [cell_Pandas_23; cell_Pandas_30; cell_Pandas_36; cell_Pandas_420]
    with ([cell_Pandas_23; cell_Pandas_30; cell_Pandas_36] ++ [cell_Pandas_420]).
  rewrite run_cells_app_outcome.
  destruct (outcome (run_cells [cell_Pandas_23; cell_Pandas_30; cell_Pandas_36] w));
    [| exact id].
  cbn [run_cells]. rewrite (bind_raise _ _ _ _ Ho). exact id.
Qed.

Lemma babies_file_is_never_fetched_witness :
  disk (final (run_cells [cell_Pandas_23; cell_Pandas_30; cell_Pandas_36] demo_world))
    !! "babies23.data" = None /\
  outcome (cell_Pandas_420
             (final (run_cells [cell_Pandas_23; cell_Pandas_30; cell_Pandas_36] demo_world)))
  = Raise (FileNotFoundError "babies23.data") /\
  ~ is_ok (outcome (run_cells [cell_Pandas_23; cell_Pandas_30; cell_Pandas_36;
                               cell_Pandas_420] demo_world)).
Proof.
  apply (babies_file_is_never_fetched demo_world). reflexivity.
Defined.

(** ** The last cell in a bare namespace *)

Ltac solve_lookup :=
  repeat first [rewrite lookup_insert_eq | rewrite lookup_insert_ne by discriminate];
  reflexivity.

Lemma cell_Pandas_1053_unbound w cls st :
  library w "pygal.maps.fr.Departments" [PyBool true] = Ok (PyLib cls st) ->
  globals w !! "df_bikes" = None ->
  wp cell_Pandas_1053 w (fun o w' l =>
    o = Raise (NameError "df_bikes") /\
    stmts_of l = [1053; 1056; 1059; 1060; 1061]%nat /\
    io_of l = [] /\
    globals w' !! "fr_chart"
    = Some (PyLib cls (PyList [PyStr "title"; PyStr "Accidents by departement"] :: st)) /\
    globals w' !! "display" = Some (PyStr "ratio_accident") /\
    globals w' !! "gd" = globals w !! "gd").
Proof.
  intros Hlib Hdf. wp_run.
  all: repeat apply conj; try reflexivity; solve_lookup.
Qed.



(** ** [illustrate_pdb] on other arguments *)

(** X10. [illustrate_pdb] on other arguments than ints: a float gives
    the float [42.0 + x]; a text, or [None], raises [TypeError] at line
    471, after the debugger prompt and before the [return]; in every
    case the world is left as it was. *)
Theorem illustrate_pdb_on_float_and_text (w : world) :
  (forall g,
     outcome (illustrate_pdb (PyFloat g) w)
     = Ok (PyFloat (SFadd prec emax (S754_finite false 5910974510923776 (-47)) g))) /\
  (forall s,
     outcome (illustrate_pdb (PyStr s) w) = Raise TypeError /\
     stmts_of (emitted (illustrate_pdb (PyStr s) w)) = [469; 470; 471]%nat /\
     io_of (emitted (illustrate_pdb (PyStr s) w)) = [Debugger]) /\
  outcome (illustrate_pdb PyNone w) = Raise TypeError /\
  (forall x, final (illustrate_pdb x w) = w).
Proof.
  repeat apply conj.
  - intros g. reflexivity.
  - intros s. repeat apply conj; reflexivity.
  - reflexivity.
  - intros x. change (wp (illustrate_pdb x) w (fun _ w' _ => w' = w)).
    wp_run; reflexivity.
Qed.

(** ** The cache of osmnx *)

Lemma cell_TempsMemoire_333_first w text g :
  ox_use_cache w = true ->
  disk w !! cache_path place_montpellier = None ->
  web w !! place_montpellier = Some text ->
  library w "ox.graph_from_place" [PyStr text; PyStr "bike"] = Ok g ->
  wp cell_TempsMemoire_333 w (fun o w' l =>
    o = Ok tt /\
    io_of l = [WebQuery "OpenStreetMap" place_montpellier;
               FileWrite (cache_path place_montpellier)] /\
    disk w' = <[cache_path place_montpellier := text]> (disk w) /\
    globals w' !! "G" = Some g /\
    ox_use_cache w' = true /\ library w' = library w).
Proof.
  intros Hc Hd Hw Hl. cbn [cache_path String.append place_montpellier] in *. wp_run.
  all: repeat apply conj; try reflexivity; try assumption; solve_lookup.
Qed.

Lemma cell_TempsMemoire_333_replay w text g :
  ox_use_cache w = true ->
  disk w !! cache_path place_montpellier = Some text ->
  library w "ox.graph_from_place" [PyStr text; PyStr "bike"] = Ok g ->
  wp cell_TempsMemoire_333 w (fun o w' l =>
    o = Ok tt /\
    io_of l = [FileRead (cache_path place_montpellier)] /\
    disk w' = disk w /\
    globals w' !! "G" = Some g).
Proof.
  intros Hc Hd Hl. cbn [cache_path String.append place_montpellier] in *. wp_run.
  all: repeat apply conj; try reflexivity; try assumption; solve_lookup.
Qed.



(** ** Deleting the columns *)

Lemma assoc_get_del_eq k cols : assoc_get k (assoc_del k cols) = None.
Proof.
  induction cols as [| [k' v'] cols IH]; [reflexivity |].
  cbn [assoc_del].
  destruct (String.eqb k k') eqn:E; [exact IH |].
  cbn [assoc_get]. rewrite E. exact IH.
Qed.

Lemma assoc_get_del_ne k j cols :
  j <> k -> assoc_get j (assoc_del k cols) = assoc_get j cols.
Proof.
  intros Hne. induction cols as [| [k' v'] cols IH]; [reflexivity |].
  cbn [assoc_del].
  destruct (String.eqb k k') eqn:E; cbn [assoc_get].
  - apply String.eqb_eq in E. subst k'.
    destruct (String.eqb j k) eqn:E'; [apply String.eqb_eq in E'; congruence | exact IH].
  - rewrite IH. reflexivity.
Qed.

Lemma assoc_get_set_ne k j v cols :
  j <> k -> assoc_get j (assoc_set k v cols) = assoc_get j cols.
Proof.
  intros Hne. induction cols as [| [k' v'] cols IH]; cbn [assoc_set assoc_get].
  - destruct (String.eqb j k) eqn:E; [apply String.eqb_eq in E; congruence | reflexivity].
  - destruct (String.eqb k k') eqn:E; cbn [assoc_get].
    + apply String.eqb_eq in E. subst k'.
      destruct (String.eqb j k) eqn:E'; [apply String.eqb_eq in E'; congruence | reflexivity].
    + destruct (String.eqb j k'); [reflexivity | exact IH].
Qed.

Lemma cell_Pandas_600_run w cols t h d :
  globals w !! "polution_df" = Some (PyFrame cols) ->
  globals w !! "time_improved" = Some t ->
  assoc_get "heure" cols = Some h ->
  assoc_get "date" cols = Some d ->
  wp cell_Pandas_600 w (fun o w' _ =>
    o = Ok tt /\
    globals w' !! "polution_df"
    = Some (PyFrame (assoc_del "date" (assoc_del "heure" (assoc_set "DateTime" t cols)))) /\
    globals w' !! "time_improved" = Some t).
Proof.
  intros Hdf Ht Hh Hd. wp_run.
  - repeat apply conj; try reflexivity; try solve_lookup.
    rewrite !lookup_insert_ne by discriminate. exact Ht.
  - rewrite assoc_get_del_ne, assoc_get_set_ne in * by discriminate. congruence.
  - rewrite assoc_get_set_ne in * by discriminate. congruence.
Qed.

Lemma cell_Pandas_600_no_hour w cols t :
  globals w !! "polution_df" = Some (PyFrame cols) ->
  globals w !! "time_improved" = Some t ->
  assoc_get "heure" cols = None ->
  wp cell_Pandas_600 w (fun o w' l =>
    o = Raise (KeyError "heure") /\ stmts_of l = [600; 603]%nat).
Proof.
  intros Hdf Ht Hh. wp_run.
  1, 2: rewrite assoc_get_set_ne in * by discriminate; congruence.
  split; reflexivity.
Qed.

Lemma cell_Pandas_584_no_date w cols :
  globals w !! "polution_df" = Some (PyFrame cols) ->
  assoc_get "date" cols = None ->
  wp cell_Pandas_584 w (fun o w' l =>
    o = Raise (KeyError "date") /\ calls_of l = ["DataFrame.__getitem__"]).
Proof.
  intros Hdf Hd. wp_run. split; reflexivity.
Qed.

(** X12. The cell of lines 600-604, on a table with the columns
    [heure] and [date], adds the column [DateTime], removes the two and
    keeps every other column; run a second time it raises
    [KeyError: 'heure'], and the date cell of lines 584-589 run after it
    raises [KeyError: 'date']. *)
Theorem hour_and_date_columns_deleted_once (w : world) cols t h d :
  globals w !! "polution_df" = Some (PyFrame cols) ->
  globals w !! "time_improved" = Some t ->
  assoc_get "heure" cols = Some h ->
  assoc_get "date" cols = Some d ->
  outcome (cell_Pandas_600 w) = Ok tt /\
  (exists cols',
     globals (final (cell_Pandas_600 w)) !! "polution_df" = Some (PyFrame cols') /\
     assoc_get "heure" cols' = None /\
     assoc_get "date" cols' = None /\
     assoc_get "DateTime" cols' = Some t /\
     forall k, k <> "heure" -> k <> "date" -> k <> "DateTime" ->
               assoc_get k cols' = assoc_get k cols) /\
  outcome (cell_Pandas_600 (final (cell_Pandas_600 w))) = Raise (KeyError "heure") /\
  outcome (cell_Pandas_584 (final (cell_Pandas_600 w))) = Raise (KeyError "date").
Proof.
  intros Hdf Ht Hh Hd.
  destruct (cell_Pandas_600_run w cols t h d Hdf Ht Hh Hd) as (Ho & Hg & Ht').
  assert (Hno_h : assoc_get "heure"
            (assoc_del "date" (assoc_del "heure" (assoc_set "DateTime" t cols))) = None).
  { rewrite assoc_get_del_ne by discriminate. apply assoc_get_del_eq. }
  assert (Hno_d : assoc_get "date"
            (assoc_del "date" (assoc_del "heure" (assoc_set "DateTime" t cols))) = None)
    by apply assoc_get_del_eq.
  repeat apply conj.
  - exact Ho.
  - eexists. split; [exact Hg |]. repeat apply conj.
    + exact Hno_h.
    + exact Hno_d.
    + rewrite !assoc_get_del_ne by discriminate. apply assoc_get_set_eq.
    + intros k H1 H2 H3.
      rewrite !assoc_get_del_ne by assumption. apply assoc_get_set_ne. assumption.
  - apply (cell_Pandas_600_no_hour _ _ t Hg Ht' Hno_h).
  - apply (cell_Pandas_584_no_date _ _ Hg Hno_d).
Qed.

Lemma hour_and_date_columns_deleted_once_witness :
  outcome (cell_Pandas_600 demo_world_timed) = Ok tt /\
  (exists cols',
     globals (final (cell_Pandas_600 demo_world_timed)) !! "polution_df"
     = Some (PyFrame cols') /\
     assoc_get "heure" cols' = None /\
     assoc_get "date" cols' = None /\
     assoc_get "DateTime" cols' = Some (PyLib "DatetimeIndex" []) /\
     forall k, k <> "heure" -> k <> "date" -> k <> "DateTime" ->
               assoc_get k cols'
               = assoc_get k
                   [("date", PySeries "object" [PyStr "21/04/2008"; PyStr "21/04/2008"]);
                    ("heure", PySeries "object" [PyStr "1"; PyStr "24"])]) /\
  outcome (cell_Pandas_600 (final (cell_Pandas_600 demo_world_timed)))
  = Raise (KeyError "heure") /\
  outcome (cell_Pandas_584 (final (cell_Pandas_600 demo_world_timed)))
  = Raise (KeyError "date").
Proof.
  apply (hour_and_date_columns_deleted_once demo_world_timed
           [("date", PySeries "object" [PyStr "21/04/2008"; PyStr "21/04/2008"]);
            ("heure", PySeries "object" [PyStr "1"; PyStr "24"])]
           (PyLib "DatetimeIndex" [])
           (PySeries "object" [PyStr "1"; PyStr "24"])
           (PySeries "object" [PyStr "21/04/2008"; PyStr "21/04/2008"]));
    reflexivity.
Defined.

(** ** The legend of the monthly plot *)

Lemma compare_refl s : String.compare s s = Eq.
Proof.
  pose proof (String.compare_antisym s s) as H.
  destruct (String.compare s s); try discriminate; reflexivity.
Qed.

Lemma insert_key_below a l :
  match l with [] => True | b :: _ => String.compare a b = Lt end ->
  insert_key a l = a :: l.
Proof. destruct l as [| b l]; cbn; [reflexivity | intros ->; reflexivity]. Qed.

Lemma filter_head_above (P : string -> bool) a L :
  List.Forall (fun x => String.compare a x = Lt) L ->
  match List.filter P L with [] => True | b :: _ => String.compare a b = Lt end.
Proof.
  induction 1 as [| x L Hx _ IH]; cbn; [exact I |].
  destruct (P x); [exact Hx | exact IH].
Qed.

Lemma filter_ext_above (P : string -> bool) a L :
  List.Forall (fun x => String.compare a x = Lt) L ->
  List.filter (fun x => String.eqb x a || P x) L = List.filter P L.
Proof.
  induction 1 as [| x L Hx _ IH]; cbn; [reflexivity |].
  assert (E : String.eqb x a = false).
  { apply String.eqb_neq. intros ->. rewrite compare_refl in Hx. discriminate. }
  rewrite E, IH. reflexivity.
Qed.

Lemma insert_key_filter (P : string -> bool) a L :
  StronglySorted (fun x y => String.compare x y = Lt) L -> In a L ->
  insert_key a (List.filter P L) = List.filter (fun x => String.eqb x a || P x) L.
Proof.
  induction 1 as [| b L HL IH Hb]; intros Hin; [destruct Hin |].
  cbn [List.filter].
  destruct (String.eqb b a) eqn:E.
  - apply String.eqb_eq in E. subst b. cbn [orb].
    rewrite (filter_ext_above P a L Hb).
    destruct (P a).
    + cbn [insert_key]. rewrite compare_refl. reflexivity.
    + apply insert_key_below, filter_head_above, Hb.
  - assert (Ha : In a L).
    { destruct Hin as [-> | H]; [rewrite String.eqb_refl in E; discriminate | exact H]. }
    assert (Hlt : String.compare a b = Gt).
    { rewrite String.compare_antisym.
      rewrite List.Forall_forall in Hb. rewrite (Hb a Ha). reflexivity. }
    cbn [orb]. destruct (P b).
    + cbn [insert_key]. rewrite Hlt, (IH Ha). reflexivity.
    + apply IH, Ha.
Qed.

Lemma sorted_unique_filter L l :
  StronglySorted (fun x y => String.compare x y = Lt) L ->
  List.Forall (fun a => In a L) l ->
  sorted_unique l = List.filter (has l) L.
Proof.
  intros HL. induction 1 as [| a l Ha _ IH].
  - cbn. induction L as [| b L IHL]; [reflexivity |].
    cbn. apply IHL. inversion HL; assumption.
  - cbn [sorted_unique fold_right]. fold (sorted_unique l). rewrite IH.
    apply insert_key_filter; assumption.
Qed.

Lemma months_by_abbr_sorted :
  StronglySorted (fun x y => String.compare x y = Lt) months_by_abbr.
Proof.
  unfold months_by_abbr.
  repeat (apply SSorted_cons; [| closed_Forall]). apply SSorted_nil.
Qed.

Lemma lambda_Pandas_995_month m :
  1 <= m <= 12 ->
  exists s, lambda_Pandas_995 (PyInt m) = Ok (PyStr s) /\
            In s months_by_abbr /\ py_index month_abbr m = Some s.
Proof.
  intros Hm.
  assert (Hc : exists n : nat, (n < 12)%nat /\ m = Z.of_nat n + 1)
    by (exists (Z.to_nat (m - 1)); lia).
  destruct Hc as (n & Hn & ->).
  do 12 (destruct n as [| n];
         [eexists; split; [reflexivity | split; [cbn; tauto | reflexivity]] |]).
  lia.
Qed.

Lemma months_by_abbr_month s :
  In s months_by_abbr -> exists m, 1 <= m <= 12 /\ py_index month_abbr m = Some s.
Proof.
  intros H. cbn in H.
  repeat (destruct H as [<- | H];
          [first [exists 1; split; [lia | reflexivity]
                 | exists 2; split; [lia | reflexivity]
                 | exists 3; split; [lia | reflexivity]
                 | exists 4; split; [lia | reflexivity]
                 | exists 5; split; [lia | reflexivity]
                 | exists 6; split; [lia | reflexivity]
                 | exists 7; split; [lia | reflexivity]
                 | exists 8; split; [lia | reflexivity]
                 | exists 9; split; [lia | reflexivity]
                 | exists 10; split; [lia | reflexivity]
                 | exists 11; split; [lia | reflexivity]
                 | exists 12; split; [lia | reflexivity]] |]).
  destruct H.
Qed.

Lemma apply_month_rows ms :
  Forall (fun m => 1 <= m <= 12) ms ->
  exists texts,
    traverse lambda_Pandas_995 (map PyInt ms) = Ok (map PyStr texts) /\
    List.Forall (fun a => In a months_by_abbr) texts /\
    forall m s, In m ms -> py_index month_abbr m = Some s -> In s texts.
Proof.
  induction 1 as [| m ms Hm _ (texts & E & Hin & Hall)].
  - exists []. repeat apply conj; [reflexivity | constructor | intros ? ? []].
  - destruct (lambda_Pandas_995_month m Hm) as (s & Hs & Hs' & Hidx).
    exists (s :: texts). repeat apply conj.
    + cbn [map traverse]. rewrite Hs, E. reflexivity.
    + constructor; assumption.
    + intros m' s' [<- | Hm'] Hidx'.
      * left. congruence.
      * right. eapply Hall; eassumption.
Qed.

Lemma has_In l x : In x l -> has l x = true.
Proof.
  intros H. unfold has. apply existsb_exists. exists x. split; [assumption |].
  apply String.eqb_refl.
Qed.

Lemma filter_all {A} (P : A -> bool) (L : list A) :
  (forall x, In x L -> P x = true) -> List.filter P L = L.
Proof.
  induction L as [| a L IH]; intros H; [reflexivity |].
  cbn. rewrite (H a) by (left; reflexivity). rewrite IH; [reflexivity |].
  intros x Hx. apply H. right. assumption.
Qed.

Lemma cell_Pandas_995_run w cols dt xs :
  globals w !! "df_bikes" = Some (PyFrame cols) ->
  assoc_get "month" cols = Some (PySeries dt xs) ->
  wp cell_Pandas_995 w (fun o w' _ =>
    match traverse lambda_Pandas_995 xs with
    | Raise e => o = Raise e /\ globals w' = globals w
    | Ok col =>
        o = Ok tt /\
        globals w' !! "df_bikes"
        = Some (PyFrame (assoc_set "month" (PySeries "object" col) cols))
    end).
Proof.
  intros Hdf Hcol. wp_run; use_eqns; split; try reflexivity.
  apply lookup_insert_eq.
Qed.

(** X13. When the rows cover the twelve months, line 995 turns the
    month numbers into abbreviations, the curves of the monthly plot
    come in alphabetical order of the abbreviation (Apr, Aug, Dec, ...),
    and the legend of lines 1014-1015, which lists the names from
    January to December, gives every curve the name of another month. *)
Theorem month_legend_names_other_months (w : world) cols dt (ms : list Z) :
  globals w !! "df_bikes" = Some (PyFrame cols) ->
  assoc_get "month" cols = Some (PySeries dt (map PyInt ms)) ->
  Forall (fun m => 1 <= m <= 12) ms ->
  (forall m, 1 <= m <= 12 -> In m ms) ->
  outcome (cell_Pandas_995 w) = Ok tt /\
  exists texts,
    globals (final (cell_Pandas_995 w)) !! "df_bikes"
    = Some (PyFrame (assoc_set "month" (PySeries "object" (map PyStr texts)) cols)) /\
    month_columns texts = months_by_abbr /\
    legend_Pandas_1014 (month_columns texts)
    = [("Apr", "January"); ("Aug", "February"); ("Dec", "March"); ("Feb", "April");
       ("Jan", "May"); ("Jul", "June"); ("Jun", "July"); ("Mar", "August");
       ("May", "September"); ("Nov", "October"); ("Oct", "November");
       ("Sep", "December")] /\
    List.Forall (fun p => String.prefix (fst p) (snd p) = false)
      (legend_Pandas_1014 (month_columns texts)).
Proof.
  intros Hdf Hmonth Hrange Hall.
  destruct (apply_month_rows ms Hrange) as (texts & E & Hin & Hcov).
  pose proof (cell_Pandas_995_run w cols dt _ Hdf Hmonth) as Hrun.
  unfold wp in Hrun. rewrite E in Hrun. destruct Hrun as [Hok Hg].
  assert (Hcols : month_columns texts = months_by_abbr).
  { unfold month_columns.
    rewrite (sorted_unique_filter months_by_abbr _ months_by_abbr_sorted Hin).
    apply filter_all. intros s Hs. apply has_In.
    destruct (months_by_abbr_month s Hs) as (m & Hm & Hidx).
    exact (Hcov m s (Hall m Hm) Hidx). }
  split; [exact Hok |].
  exists texts. rewrite Hcols. repeat apply conj.
  - exact Hg.
  - reflexivity.
  - reflexivity.
  - closed_Forall.
Qed.

Lemma month_legend_names_other_months_witness :
  outcome (cell_Pandas_995 demo_world_months) = Ok tt /\
  exists texts,
    globals (final (cell_Pandas_995 demo_world_months)) !! "df_bikes"
    = Some (PyFrame (assoc_set "month" (PySeries "object" (map PyStr texts))
              [("month", PySeries "int64"
                  (map PyInt [12; 1; 2; 3; 4; 5; 6; 7; 8; 9; 10; 11; 12]))])) /\
    month_columns texts = months_by_abbr /\
    legend_Pandas_1014 (month_columns texts)
    = [("Apr", "January"); ("Aug", "February"); ("Dec", "March"); ("Feb", "April");
       ("Jan", "May"); ("Jul", "June"); ("Jun", "July"); ("Mar", "August");
       ("May", "September"); ("Nov", "October"); ("Oct", "November");
       ("Sep", "December")] /\
    List.Forall (fun p => String.prefix (fst p) (snd p) = false)
      (legend_Pandas_1014 (month_columns texts)).
Proof.
  apply (month_legend_names_other_months demo_world_months
           [("month", PySeries "int64"
               (map PyInt [12; 1; 2; 3; 4; 5; 6; 7; 8; 9; 10; 11; 12]))]
           "int64" [12; 1; 2; 3; 4; 5; 6; 7; 8; 9; 10; 11; 12]).
  - reflexivity.
  - reflexivity.
  - repeat apply List.Forall_cons; try apply List.Forall_nil; lia.
  - intros m Hm. cbn. lia.
Defined.

(** ** The date texts and the stored copies *)

Lemma add_space_rows ds :
  traverse (fun v => match v with
                     | PyStr a => Ok (PyStr (a ++ " "))
                     | _ => Raise TypeError
                     end) (map PyStr ds)
  = Ok (map (fun d => PyStr (d ++ " ")) ds).
Proof.
  induction ds as [| d ds IH]; [reflexivity |]. cbn [map traverse]. rewrite IH. reflexivity.
Qed.

Lemma zip_concat_rows ds hs :
  length ds = length hs ->
  zip_concat (map (fun d => PyStr (d ++ " ")) ds) (map PyStr hs)
  = Ok (map (fun p => PyStr ((fst p ++ " ") ++ snd p)) (combine ds hs)).
Proof.
  revert hs. induction ds as [| d ds IH]; intros [| h hs] Hlen; try discriminate.
  - reflexivity.
  - cbn [map zip_concat combine fst snd]. rewrite IH by (cbn in Hlen; lia). reflexivity.
Qed.

Lemma add_minutes_rows (ps : list (string * string)) :
  traverse (fun v => match v with
                     | PyStr a => Ok (PyStr (a ++ ":00"))
                     | _ => Raise TypeError
                     end) (map (fun p => PyStr ((fst p ++ " ") ++ snd p)) ps)
  = Ok (map (fun p => PyStr (((fst p ++ " ") ++ snd p) ++ ":00")) ps).
Proof.
  induction ps as [| p ps IH]; [reflexivity |]. cbn [map traverse]. rewrite IH. reflexivity.
Qed.

Lemma zip_concat_int ds d n hs :
  zip_concat (map (fun d => PyStr (d ++ " ")) (d :: ds)) (PyInt n :: hs) = Raise TypeError.
Proof. reflexivity. Qed.

Lemma cell_Pandas_584_run w cols dd ds dh hs :
  globals w !! "polution_df" = Some (PyFrame cols) ->
  assoc_get "date" cols = Some (PySeries dd (map PyStr ds)) ->
  assoc_get "heure" cols = Some (PySeries dh hs) ->
  wp cell_Pandas_584 w (fun o w' l =>
    match zip_concat (map (fun d => PyStr (d ++ " ")) ds) hs with
    | Raise e =>
        o = Raise e /\ globals w' = globals w /\
        calls_of l = ["DataFrame.__getitem__"; "Series.__add__";
                      "DataFrame.__getitem__"; "Series.__add__"]
    | Ok zs =>
        match traverse (fun v => match v with
                                 | PyStr a => Ok (PyStr (a ++ ":00"))
                                 | _ => Raise TypeError
                                 end) zs with
        | Raise e => o = Raise e /\ globals w' = globals w
        | Ok ts =>
            match library w "pd.to_datetime"
                    [PySeries "object" ts; PyStr "%d/%m/%Y %H:%M"] with
            | Raise e => o = Raise e /\ globals w' = globals w
            | Ok t => o = Ok tt /\ globals w' !! "time_improved" = Some t
            end
        end
    end).
Proof.
  intros Hdf Hd Hh.
  pose proof (add_space_rows ds) as Hsp.
  wp_run; use_eqns; try (repeat apply conj; reflexivity); try congruence.
  split; [reflexivity | apply lookup_insert_eq].
Qed.

Lemma date_hour_rows_eq ds hs :
  map (fun p => PyStr (((fst p ++ " ") ++ snd p) ++ ":00")) (combine ds hs)
  = date_hour_rows ds hs.
Proof.
  revert hs. induction ds as [| d ds IH]; intros [| h hs]; try reflexivity.
  cbn [combine map date_hour_rows fst snd]. rewrite IH. reflexivity.
Qed.

(** X14. On columns [date] and [heure] of text, the cell of lines
    584-589 hands to [pd.to_datetime] exactly the rows
    [date + ' ' + heure + ':00'] and binds [time_improved] to what the
    library answers (or fails as the library does); with the hours still
    [int8], that is without the cast of line 573, the sum of line 585
    raises [TypeError], [pd.to_datetime] is not called and the namespace
    is as before. *)
Theorem date_text_needs_the_cast_to_text (w : world) cols dd ds :
  globals w !! "polution_df" = Some (PyFrame cols) ->
  assoc_get "date" cols = Some (PySeries dd (map PyStr ds)) ->
  (forall dh hs,
     assoc_get "heure" cols = Some (PySeries dh (map PyStr hs)) ->
     length ds = length hs ->
     match library w "pd.to_datetime"
             [PySeries "object" (date_hour_rows ds hs); PyStr "%d/%m/%Y %H:%M"] with
     | Ok t =>
         outcome (cell_Pandas_584 w) = Ok tt /\
         globals (final (cell_Pandas_584 w)) !! "time_improved" = Some t
     | Raise e => outcome (cell_Pandas_584 w) = Raise e
     end) /\
  (forall dh n hs,
     assoc_get "heure" cols = Some (PySeries dh (PyInt n :: hs)) ->
     ds <> [] ->
     outcome (cell_Pandas_584 w) = Raise TypeError /\
     ~ In "pd.to_datetime" (calls_of (emitted (cell_Pandas_584 w))) /\
     globals (final (cell_Pandas_584 w)) = globals w).
Proof.
  intros Hdf Hd. split.
  - intros dh hs Hh Hlen.
    pose proof (cell_Pandas_584_run w cols dd ds dh _ Hdf Hd Hh) as Hrun.
    unfold wp in Hrun.
    rewrite (zip_concat_rows ds hs Hlen), add_minutes_rows, date_hour_rows_eq in Hrun.
    destruct (library w "pd.to_datetime" _); [exact Hrun | apply Hrun].
  - intros dh n hs Hh Hne.
    pose proof (cell_Pandas_584_run w cols dd ds dh _ Hdf Hd Hh) as Hrun.
    unfold wp in Hrun. destruct ds as [| d ds]; [congruence |].
    rewrite zip_concat_int in Hrun. destruct Hrun as (Ho & Hg & Hcalls).
    repeat apply conj; try assumption.
    rewrite Hcalls. cbn. intros H. repeat destruct H as [H | H]; try discriminate H.
    exact H.
Qed.

Lemma date_text_needs_the_cast_to_text_witness :
  (outcome (cell_Pandas_584 demo_world) = Ok tt /\
   globals (final (cell_Pandas_584 demo_world)) !! "time_improved"
   = Some (PyLib "pd.to_datetime"
             [PySeries "object" [PyStr "21/04/2008 1:00"; PyStr "21/04/2008 24:00"];
              PyStr "%d/%m/%Y %H:%M"])) /\
  (outcome (cell_Pandas_584 demo_world_int8_hours) = Raise TypeError /\
   ~ In "pd.to_datetime" (calls_of (emitted (cell_Pandas_584 demo_world_int8_hours))) /\
   globals (final (cell_Pandas_584 demo_world_int8_hours))
   = globals demo_world_int8_hours).
Proof.
  split.
  - destruct (date_text_needs_the_cast_to_text demo_world
                [("date", PySeries "object" [PyStr "21/04/2008"; PyStr "21/04/2008"]);
                 ("heure", PySeries "object" [PyStr "1"; PyStr "24"])]
                "object" ["21/04/2008"; "21/04/2008"]) as [H _];
      [reflexivity | reflexivity |].
    exact (H "object" ["1"; "24"] eq_refl eq_refl).
  - destruct (date_text_needs_the_cast_to_text demo_world_int8_hours
                [("date", PySeries "object" [PyStr "21/04/2008"; PyStr "21/04/2008"]);
                 ("heure", PySeries "int8" [PyInt 0; PyInt 23])]
                "object" ["21/04/2008"; "21/04/2008"]) as [_ H];
      [reflexivity | reflexivity |].
    apply (H "int8" 0 [PyInt 23]); [reflexivity | discriminate].
Defined.

Lemma cells_Pandas_30_36_stale w stale :
  disk w !! "titanic.csv" = Some stale ->
  wp (run_cells [cell_Pandas_30; cell_Pandas_36]) w (fun o w' l =>
    io_of l = [FileRead "titanic.csv"] /\
    match library w "pd.read_csv" [PyStr stale] with
    | Ok df => o = Ok tt /\ globals w' !! "df_titanic_raw" = Some df
    | Raise e => o = Raise e
    end).
Proof.
  intros Hd. wp_run; use_eqns; repeat apply conj; try reflexivity.
  apply lookup_insert_eq.
Qed.

Lemma cells_Pandas_785_793_fresh w body :
  web w !! url_bikes = Some body ->
  wp (run_cells [cell_Pandas_785; cell_Pandas_793]) w (fun o w' l =>
    io_of l = [HttpGet url_bikes; FileWrite "./bicycle_db.csv"; FileRead "bicycle_db.csv"] /\
    match library w "pd.read_csv" (PyStr body :: kwargs_Pandas_793) with
    | Ok df => o = Ok tt /\ globals w' !! "df_bikes" = Some df
    | Raise e => o = Raise e
    end).
Proof.
  unfold url_bikes. intros Hw. wp_run; use_eqns; repeat apply conj; try reflexivity.
  all: apply lookup_insert_eq.
Qed.


